(** * agent_suite: the agent invocation loop, its prompts and its memory

    A shallow embedding of [src/agents/memory_stores/mem_store.py],
    [src/agents/memory.py], [src/agents/prompt.py], [src/agents/agent.py]
    and [src/agents/react_agent.py].

    Python dictionaries are finite maps ([gmap]), lists are lists, [int] is
    [Z].  A character is a Unicode code point below 256, so that a [str] is
    a [string].  Calls that may raise return an [outcome]; the loops of the
    agents thread an explicit state and take fuel. *)

From Stdlib Require Import ZArith Ascii String.
From stdpp Require Import base numbers option list strings gmap pretty.

Local Open Scope string_scope.
Local Open Scope Z_scope.

(** ** Python values *)

(** Objects that the loop only carries around: the keyword arguments of a
    tool call and what a tool returns. *)
Inductive pyobj :=
| PyNone
| PyBool (b : bool)
| PyInt (z : Z)
| PyStr (s : string)
| PyObject (id : positive).  (* any other object, by its identity *)

Abbreviation kwargs := (gmap string pyobj).

(** [tool_call.function.name] and [tool_call.function.arguments]. *)
Record tool_call := ToolCall {
  function_name : string;
  function_arguments : kwargs
}.

(** A structured backend response: [response.content] (a [str] or [None])
    and [response.tool_calls] ([None] and the empty list are both falsy and
    are both the empty list here). *)
Record structured := Structured {
  content : option string;
  tool_calls : list tool_call
}.

(** What [chat_completion] returns: plain text or a structured object. *)
Inductive response :=
| RText (s : string)
| RStructured (r : structured).

(** The values found under the keys of a message dictionary. *)
Inductive value :=
| VNone
| VStr (s : string)
| VToolCalls (tcs : list tool_call)
| VResponse (r : structured).

Abbreviation message := (gmap string value).

Definition value_of_content (c : option string) : value :=
  match c with
  | Some s => VStr s
  | None => VNone
  end.

Definition value_of_response (r : response) : value :=
  match r with
  | RText s => VStr s
  | RStructured o => VResponse o
  end.

(** ** Exceptions and outcomes *)

Inductive exn :=
| KeyError (key : string)
| UnboundLocalError (name : string)
| VariablesMissing (variables : gmap string string)
    (* ValueError(f"Variables missing: {variables}") *)
| FormatValueError
    (* ValueError of str.format: a single brace, an unclosed field *)
| IndexError
| TypeError
| AttributeError
| Exception (msg : string).

(** Why the model has no answer: a loop ran out of fuel, or the input uses
    a feature of [str.format] that is not modelled (an attribute or an
    index of a value, the conversions [!r] and [!a], a format spec that is
    not empty). *)
Inductive stuck := OutOfFuel | BeyondModel.

Inductive outcome (A : Type) :=
| Ok (a : A)
| Raise (e : exn)
| Stuck (why : stuck).
Arguments Ok {A} a.
Arguments Raise {A} e.
Arguments Stuck {A} why.

Definition bind {A B} (x : outcome A) (f : A → outcome B) : outcome B :=
  match x with
  | Ok a => f a
  | Raise e => Raise e
  | Stuck w => Stuck w
  end.

Notation "'do' x <- c1 ; c2" := (bind c1 (fun x => c2))
  (at level 10, x name, c1 at level 100, c2 at level 200).

(** ** Python list slices *)

(** [l[start:]]: a negative [start] counts from the end, and the bound is
    clamped to the list. *)
Definition slice_from {A} (start : Z) (l : list A) : list A :=
  let n := Z.of_nat (length l) in
  let lo := if start <? 0 then Z.max (start + n) 0 else Z.min start n in
  drop (Z.to_nat lo) l.

(** ** Store and MemoryStore (memory_stores/store.py, mem_store.py) *)

Module MemoryStore.

Record t := Build {
  history : list message;
  cache : gmap string pyobj
}.

(* Store.__init__ *)
Definition init : t := {| history := []; cache := ∅ |}.

(* "role" in message and "content" in message *)
Definition well_formed (m : message) : bool :=
  bool_decide (is_Some (m !! "role")) && bool_decide (is_Some (m !! "content")).

Definition add_history (self : t) (m : message) : t :=
  if well_formed m
  then {| history := (history self ++ [m])%list; cache := cache self |}
  else self.

(* limit: int = 20 *)
Definition default_limit : Z := 20.

Definition get_history (self : t) (limit : Z) : list message :=
  slice_from (- limit) (history self).

Definition clear (self : t) (hist cach : bool) : t :=
  let self1 := if hist then {| history := []; cache := cache self |} else self in
  if cach then {| history := history self1; cache := ∅ |} else self1.

(* self.cache[key] = value *)
Definition set_cache (self : t) (key : string) (value : pyobj) : t :=
  {| history := history self; cache := <[key := value]> (cache self) |}.

(** What [fetch_cache] returns: the whole dictionary for [key=None], and
    [self.cache.get(key)] otherwise, which is [None] for an absent key. *)
Inductive fetched :=
| WholeCache (c : gmap string pyobj)
| Entry (v : pyobj).

Definition fetch_cache (self : t) (key : option string) : fetched :=
  match key with
  | None => WholeCache (cache self)
  | Some k => Entry (default PyNone (cache self !! k))
  end.

Definition clear_history (self : t) : t :=
  {| history := []; cache := cache self |}.

Definition clear_cache (self : t) : t :=
  {| history := history self; cache := ∅ |}.

End MemoryStore.

(** ** MemoryManager (memory.py) *)

Module MemoryManager.

Record t := Build {
  store : MemoryStore.t;
  max_history : Z
}.

(* max_history: int = 20 *)
Definition default_max_history : Z := 20.

Definition init (max_history : Z) : t :=
  {| store := MemoryStore.init; max_history := max_history |}.

Definition add (self : t) (m : message) : t :=
  let st := MemoryStore.add_history (store self) m in
  (* self.store.get_history() is called with its default limit *)
  let history := MemoryStore.get_history st MemoryStore.default_limit in
  if Z.of_nat (length history) >? max_history self then
    let new_history := slice_from 1 history in
    let st := MemoryStore.clear st true true in
    let st := foldl MemoryStore.add_history st new_history in
    {| store := st; max_history := max_history self |}
  else
    {| store := st; max_history := max_history self |}.

(* limit: int = 20 *)
Definition default_limit : Z := 20.

Definition get_history (self : t) (limit : Z) : list message :=
  MemoryStore.get_history (store self) limit.

Definition clear (self : t) : t :=
  {| store := MemoryStore.clear (store self) true false;
     max_history := max_history self |}.

(** A sequence of [add] calls. *)
Definition add_all (self : t) (ms : list message) : t :=
  foldl add self ms.

End MemoryManager.

(** ** CacheManager (cache.py) *)

Module CacheManager.

Record t := Build {
  store : MemoryStore.t
}.

Definition init : t := {| store := MemoryStore.init |}.

Definition set (self : t) (key : string) (value : pyobj) : t :=
  {| store := MemoryStore.set_cache (store self) key value |}.

Definition get (self : t) (key : string) : MemoryStore.fetched :=
  MemoryStore.fetch_cache (store self) (Some key).

Definition clear (self : t) : t :=
  {| store := MemoryStore.clear (store self) false true |}.

End CacheManager.

(** ** AgentConfig (config.py) *)

Module AgentConfig.

Record t := Build {
  agent_mode : string
}.

(** A call that returns, or raises the [ValueError] that says the mode is
    not supported. *)
Inductive checked (A : Type) :=
| Valid (a : A)
| ModeNotSupported (mode : string).
Arguments Valid {A} a.
Arguments ModeNotSupported {A} mode.

Definition valid_modes : list string :=
  ["chat"; "analysis"; "task"; "extraction"; "tool_use"; "react"].

Definition _validate_mode (mode : string) : checked unit :=
  if bool_decide (mode ∈ valid_modes) then Valid () else ModeNotSupported mode.


(* __init__: the object is handed back only when the validation passes *)
Definition init (agent_mode : string) : checked t :=
  match _validate_mode agent_mode with
  | Valid _ => Valid {| agent_mode := agent_mode |}
  | ModeNotSupported m => ModeNotSupported m
  end.

Definition get_mode (self : t) : string := agent_mode self.

(** The outcome of the call and the object after it. *)
Definition set_mode (self : t) (mode : string) : checked unit * t :=
  match _validate_mode mode with
  | Valid _ => (Valid (), {| agent_mode := mode |})
  | ModeNotSupported m => (ModeNotSupported m, self)
  end.

End AgentConfig.

(** A well-formed message with the given role and content. *)
Definition mk_message (role content : string) : message :=
  {[ "role" := VStr role; "content" := VStr content ]}.

(** [n] distinct user messages, [user_messages n = [m_0; ...; m_(n-1)]]. *)
Definition user_messages (n : nat) : list message :=
  (λ i : nat, mk_message "user" (pretty i)) <$> seq 0 n.


(** ** Python strings *)

Definition nl : string := String "010"%char EmptyString.

Definition nl2 : string := nl +:+ nl.

(** [sep.join(l)] *)
Fixpoint join (sep : string) (l : list string) : string :=
  match l with
  | [] => EmptyString
  | [x] => x
  | x :: l' => x +:+ sep +:+ join sep l'
  end.

Definition in_range (lo hi n : N) : bool := ((lo <=? n) && (n <=? hi))%N.

(** [c.lower()] on the code points below 256: A-Z, and the upper-case
    letters of Latin-1 (192-222 but the multiplication sign 215). *)
Definition lower_char (c : ascii) : ascii :=
  let n := N_of_ascii c in
  if in_range 65 90 n || (in_range 192 222 n && negb (n =? 215)%N)
  then ascii_of_N (n + 32)
  else c.

(** [s.lower()] *)
Fixpoint lower (s : string) : string :=
  match s with
  | EmptyString => EmptyString
  | String c s' => String (lower_char c) (lower s')
  end.

(** [c.isspace()] on the code points below 256. *)
Definition isspace (c : ascii) : bool :=
  let n := N_of_ascii c in
  in_range 9 13 n || in_range 28 32 n || (n =? 133)%N || (n =? 160)%N.

Fixpoint lstrip (s : string) : string :=
  match s with
  | EmptyString => EmptyString
  | String c s' => if isspace c then lstrip s' else s
  end.

Fixpoint rstrip (s : string) : string :=
  match s with
  | EmptyString => EmptyString
  | String c s' =>
      let r := rstrip s' in
      if isspace c && bool_decide (r = EmptyString) then EmptyString else String c r
  end.

(** [s.strip()] *)
Definition strip (s : string) : string := rstrip (lstrip s).

(** [needle in s] *)
Fixpoint contains (needle s : string) : bool :=
  String.prefix needle s ||
  match s with
  | EmptyString => false
  | String _ s' => contains needle s'
  end.

(** [s.replace(old, new)]: the occurrences of [old] are replaced from the
    left, without overlap; [skip] counts the characters of a replaced
    occurrence still to be passed over. *)
Fixpoint replace_go (old new : string) (skip : nat) (s : string) : string :=
  match s with
  | EmptyString => if bool_decide (old = EmptyString) then new else EmptyString
  | String c s' =>
      match skip with
      | S k => replace_go old new k s'
      | O =>
          if String.prefix old s
          then new +:+
               (if bool_decide (old = EmptyString) then String c (replace_go old new O s')
                else replace_go old new (String.length old - 1) s')
          else String c (replace_go old new O s')
      end
  end.

Definition replace (old new s : string) : string := replace_go old new O s.

(** *** [str.format] with keyword arguments only

    The template is read from the left, as CPython does, so that the first
    error met is the one raised.  A doubled brace is a literal brace.  A
    replacement field is [{name}], [{name!c}], [{name:spec}] or
    [{name!c:spec}]; the part of [name] before the first [.] or [[] is
    looked up in [kw], and an empty or numeric one is positional, while
    [format] is given no positional argument.  The lookup comes before the
    conversion and the format spec, so that a field whose key is missing
    raises [KeyError] whatever else it carries. *)

Definition is_digit (c : ascii) : bool := in_range 48 57 (N_of_ascii c).

Fixpoint all_digits (s : string) : bool :=
  match s with
  | EmptyString => true
  | String c s' => is_digit c && all_digits s'
  end.

(** Where the reader of a template is. *)
Inductive mstate :=
| MText                                  (* in literal text *)
| MOpen                                  (* after a single left brace *)
| MClose                                 (* after a single right brace *)
| MName (name : string)                  (* in a field name *)
| MBracket (name : string)               (* in a field name, inside [[...]] *)
| MBang (name : string)                  (* after the [!] of a conversion *)
| MConv (name : string) (conv : ascii)   (* after the conversion character *)
| MSpec (name : string) (conv : option ascii) (spec : string) (depth : nat).
    (* in the format spec, [depth] inner braces open *)

(** What one character makes the reader do. *)
Inductive action :=
| Goto (st : mstate)
| Literal (c : ascii)          (* a character of the result; back to text *)
| Field (name : string) (conv : option ascii) (spec : string)
| Fail (e : exn).

Definition snoc (s : string) (c : ascii) : string := s +:+ String c EmptyString.

(** A character of a field name: the name ends at [}], [:] or [!], a left
    brace is an error, and what follows a [[] is skipped up to the [[]]. *)
Definition name_char (name : string) (c : ascii) : action :=
  if bool_decide (c = "{"%char) then Fail FormatValueError
  else if bool_decide (c = "["%char) then Goto (MBracket (snoc name c))
  else if bool_decide (c = "}"%char) then Field name None EmptyString
  else if bool_decide (c = ":"%char) then Goto (MSpec name None EmptyString 0)
  else if bool_decide (c = "!"%char) then Goto (MBang name)
  else Goto (MName (snoc name c)).

Definition step (st : mstate) (c : ascii) : action :=
  match st with
  | MText =>
      if bool_decide (c = "{"%char) then Goto MOpen
      else if bool_decide (c = "}"%char) then Goto MClose
      else Literal c
  | MOpen =>
      if bool_decide (c = "{"%char) then Literal c else name_char EmptyString c
  | MClose =>
      if bool_decide (c = "}"%char) then Literal c else Fail FormatValueError
  | MName name => name_char name c
  | MBracket name =>
      if bool_decide (c = "]"%char) then Goto (MName (snoc name c))
      else Goto (MBracket (snoc name c))
  | MBang name => Goto (MConv name c)
  | MConv name conv =>
      if bool_decide (c = "}"%char) then Field name (Some conv) EmptyString
      else if bool_decide (c = ":"%char) then Goto (MSpec name (Some conv) EmptyString 0)
      else Fail FormatValueError
  | MSpec name conv spec depth =>
      if bool_decide (c = "{"%char) then Goto (MSpec name conv (snoc spec c) (S depth))
      else if bool_decide (c = "}"%char) then
        match depth with
        | O => Field name conv spec
        | S d => Goto (MSpec name conv (snoc spec c) d)
        end
      else Goto (MSpec name conv (snoc spec c) depth)
  end.

(** The part of a field name before the first [.] or [[], and the rest. *)
Fixpoint split_first (name : string) : string * string :=
  match name with
  | EmptyString => (EmptyString, EmptyString)
  | String c name' =>
      if bool_decide (c = "."%char) || bool_decide (c = "["%char)
      then (EmptyString, name)
      else (String c (split_first name').1, (split_first name').2)
  end.

(** [!s] leaves a [str] as it is; [!r] and [!a] need [repr]; any other
    conversion is a [ValueError]. *)
Definition convert (conv : option ascii) (v : string) : outcome string :=
  match conv with
  | None => Ok v
  | Some c =>
      if bool_decide (c = "s"%char) then Ok v
      else if bool_decide (c = "r"%char) || bool_decide (c = "a"%char)
      then Stuck BeyondModel
      else Raise FormatValueError
  end.

(** The text of a field.  An attribute or an index of a value, and a
    format spec that is not empty, are not modelled. *)
Definition render_field (name : string) (conv : option ascii) (spec : string)
    (kw : gmap string string) : outcome string :=
  let first := (split_first name).1 in
  let rest := (split_first name).2 in
  if all_digits first then
    (* positional; an index beyond sys.maxsize is a ValueError instead *)
    if (String.length first <=? 18)%nat then Raise IndexError else Stuck BeyondModel
  else
    match kw !! first with
    | None => Raise (KeyError first)
    | Some v =>
        if bool_decide (rest = EmptyString) then
          do v' <- convert conv v;
          if bool_decide (spec = EmptyString) then Ok v' else Stuck BeyondModel
        else Stuck BeyondModel
    end.

Definition emit (v : string) (r : outcome string) : outcome string :=
  do s <- r; Ok (v +:+ s).

Fixpoint format_go (kw : gmap string string) (st : mstate) (t : string) : outcome string :=
  match t with
  | EmptyString =>
      match st with
      | MText => Ok EmptyString
      | _ => Raise FormatValueError
      end
  | String c t' =>
      match step st c with
      | Goto st' => format_go kw st' t'
      | Literal c' => emit (String c' EmptyString) (format_go kw MText t')
      | Field name conv spec =>
          do v <- render_field name conv spec kw; emit v (format_go kw MText t')
      | Fail e => Raise e
      end
  end.

Definition format (t : string) (kw : gmap string string) : outcome string :=
  format_go kw MText t.

(** *** Templates with plain names

    The templates whose fields are all of the form [{name}]. *)






(** [d[key]] on a dictionary of strings. *)
Definition getitem (d : gmap string string) (key : string) : outcome string :=
  match d !! key with
  | Some v => Ok v
  | None => Raise (KeyError key)
  end.

(** Truth value of an optional dictionary: [None] and the empty dictionary
    are falsy. *)
Definition dict_truthy (d : option (gmap string string)) : bool :=
  match d with
  | Some m => negb (bool_decide (m = ∅))
  | None => false
  end.

(** ** PromptFormatter (prompt.py) *)

Inductive PromptFormatType := MARKDOWN | XML | PLAIN.

Module PromptFormatter.

Record t := Build {
  role : option string;
  task : option string;
  guide : option string;
  output_format : option string;
  examples : list (gmap string string);
  format_type : PromptFormatType
}.

(* __init__: every argument defaults to None, format_type to MARKDOWN;
   self.examples = examples or [] *)
Definition init (role task guide output_format : option string)
    (examples : option (list (gmap string string)))
    (format_type : PromptFormatType) : t :=
  {| role := role; task := task; guide := guide;
     output_format := output_format;
     examples := default [] examples;
     format_type := format_type |}.

(* for i, example in enumerate(self.examples, 1): examples_str += f"..." *)
Fixpoint examples_loop (i : nat) (examples : list (gmap string string))
    (examples_str : string) : outcome string :=
  match examples with
  | [] => Ok examples_str
  | example :: rest =>
      do input <- getitem example "input";
      do output <- getitem example "output";
      examples_loop (S i) rest
        (examples_str +:+ "Example " +:+ pretty i +:+ nl +:+
         "Input: " +:+ input +:+ nl +:+
         "Output: " +:+ output +:+ nl)
  end.

(** The local [examples_str] after the first statement: [None] when it
    was never assigned. *)
Definition examples_block (self : t) : outcome (option string) :=
  match examples self with
  | [] => Ok None
  | _ :: _ =>
      do s <- examples_loop 1 (examples self) ("Examples:" +:+ nl);
      Ok (Some s)
  end.

(** Reading the local [examples_str]. *)
Definition read_local (name : string) (v : option string) : outcome string :=
  match v with
  | Some s => Ok s
  | None => Raise (UnboundLocalError name)
  end.

(* {k: v for k, v in sections.items() if v is not None} *)
Definition not_none (sections : list (string * option string)) : list (string * string) :=
  omap (λ kv, match kv.2 with Some v => Some (kv.1, v) | None => None end) sections.

Definition markdown_section (kv : string * string) : string :=
  "## " +:+ kv.1 +:+ nl +:+ kv.2.

Definition xml_section (kv : string * string) : string :=
  "<" +:+ lower kv.1 +:+ ">" +:+ kv.2 +:+ "</" +:+ lower kv.1 +:+ ">".

(** The rendering of the sections; iterating over a dictionary yields
    its keys. *)
Definition render (ft : PromptFormatType) (sections : list (string * string)) : string :=
  match ft with
  | PLAIN => join nl2 (fst <$> sections)
  | MARKDOWN => join nl2 (markdown_section <$> sections)
  | XML => join nl2 (xml_section <$> sections)
  end.

(** The prompt before the substitution of the variables. *)
Definition assemble (self : t) (user_input : string) : outcome string :=
  do examples_opt <- examples_block self;
  do examples_str <- read_local "examples_str" examples_opt;
  let sections :=
    [ ("ROLE", role self);
      ("TASK", task self);
      ("GUIDE", guide self);
      ("OUTPUT_FORMAT", output_format self);
      ("EXAMPLES", Some examples_str);
      ("USER_INPUT", Some user_input) ] in
  Ok (render (format_type self) (not_none sections)).

Definition format_prompt (self : t) (user_input : string)
    (variables : option (gmap string string)) : outcome string :=
  do prompt_str <- assemble self user_input;
  if dict_truthy variables then
    let vars := default ∅ variables in
    match format prompt_str vars with
    | Raise (KeyError _) => Raise (VariablesMissing vars)
    | r => r
    end
  else Ok prompt_str.

End PromptFormatter.

(** ** PromptManager (prompt.py) *)

Module PromptManager.

Record t := Build {
  system_prompt : string;
  variables : gmap string string;
  default_messages : list message
}.

(** [self._format_prompt(prompt, variables)]; of [self] only
    [self.variables] is read. *)
Definition _format_prompt (self_variables : gmap string string)
    (prompt : string) (variables : option (gmap string string)) : outcome string :=
  let vars_to_use := default self_variables variables in
  match format prompt vars_to_use with
  | Raise (KeyError _) => Ok prompt
  | r => r
  end.

(* __init__(self, system_prompt, variables=None) *)
Definition init (system_prompt : string)
    (variables : option (gmap string string)) : outcome t :=
  let vars := default ∅ variables in
  do rendered <- _format_prompt vars system_prompt (Some vars);
  Ok {| system_prompt := system_prompt;
        variables := vars;
        default_messages :=
          [ {[ "role" := VStr "system"; "content" := VStr rendered ]} ] |}.

Definition get_messages (self : t) (user_input : string)
    (history : option (list message))
    (variables : option (gmap string string)) : outcome (list message) :=
  let messages := default_messages self in
  let messages :=
    match history with
    | Some (m :: h) => (messages ++ m :: h)%list
    | _ => messages
    end in
  (* all_vars.update(variables): the call-time values win *)
  let all_vars :=
    if dict_truthy variables then default ∅ variables ∪ PromptManager.variables self
    else PromptManager.variables self in
  do formatted_input <- _format_prompt (PromptManager.variables self) user_input (Some all_vars);
  Ok (messages ++ [ {[ "role" := VStr "user"; "content" := VStr formatted_input ]} ])%list.

End PromptManager.


(** ** The collaborators of the loop *)

(** The calls that leave the agent, each with what it returned or raised.
    The backend and the tools answer as a function of the calls made so
    far. *)
Inductive event :=
| LLMCall (model : string) (messages : list message) (result : outcome response)
| ToolRun (tool : string) (kw : kwargs) (result : outcome pyobj).

(** tools/tool.py: a tool is dispatched on the name of its class and run
    through [arun]. *)
Record Tool := {
  class_name : string;
  arun : list event → kwargs → outcome pyobj
}.


(** llm/llm.py: [chat_completion(model, messages, tools)]. *)
Definition LLMBase : Type :=
  list event → string → list message → option (list Tool) → outcome response.

(** What the loop takes from the Python runtime: [str(tool_results)] and
    [datetime.now().isoformat()]. *)
Class Runtime := {
  py_str : list pyobj → string;
  isoformat_now : list event → string
}.

(** LogManager (logging.py) *)
Record log_entry := {
  timestamp : string;
  log_model : string;
  log_user_input : string;
  agent_response : value
}.

Definition is_llm_call (ev : event) : bool :=
  match ev with LLMCall _ _ _ => true | ToolRun _ _ _ => false end.

Definition is_tool_run (ev : event) : bool :=
  match ev with LLMCall _ _ _ => false | ToolRun _ _ _ => true end.

(** The exception an external call ended with, if any. *)
Definition event_raised (ev : event) : option exn :=
  match ev with
  | LLMCall _ _ (Raise e) => Some e
  | ToolRun _ _ (Raise e) => Some e
  | _ => None
  end.

(** ** Agent (agent.py) *)

Module Agent.

Record t := Build {
  llm : LLMBase;
  prompt_manager : PromptManager.t;
  tools : option (list Tool)
}.

(** The mutable part of an agent, and the calls it has made. *)
Record state := State {
  memory_manager : MemoryManager.t;
  log_manager : list log_entry;
  trace : list event
}.

(** Computations that read and change the state and may raise. *)
Definition M (A : Type) : Type := state → outcome A * state.

Definition ret {A} (a : A) : M A := λ s, (Ok a, s).

Definition lift {A} (o : outcome A) : M A := λ s, (o, s).

Definition bindM {A B} (m : M A) (f : A → M B) : M B :=
  λ s, match m s with
       | (Ok a, s') => f a s'
       | (Raise e, s') => (Raise e, s')
       | (Stuck w, s') => (Stuck w, s')
       end.

Notation "'let!' x := c 'in' k" := (bindM c (λ x, k))
  (at level 10, x name, c at level 100, k at level 200).

Definition record (ev : event) : M unit :=
  λ s, (Ok (), {| memory_manager := memory_manager s;
                  log_manager := log_manager s;
                  trace := (trace s ++ [ev])%list |}).

(* self.llm.chat_completion(model=model, messages=messages, tools=tools) *)
Definition chat_completion (self : t) (model : string)
    (messages : list message) (tools : option (list Tool)) : M response :=
  λ s, let r := llm self (trace s) model messages tools in
       bindM (record (LLMCall model messages r)) (λ _, lift r) s.

(* tool.arun, with tool_call.function.arguments as keyword arguments *)
Definition run_tool (tool : Tool) (kw : kwargs) : M pyobj :=
  λ s, let r := arun tool (trace s) kw in
       bindM (record (ToolRun (class_name tool) kw r)) (λ _, lift r) s.

(* self.memory_manager.add(message) *)
Definition memory_add (m : message) : M unit :=
  λ s, (Ok (), {| memory_manager := MemoryManager.add (memory_manager s) m;
                  log_manager := log_manager s;
                  trace := trace s |}).

(* self.log_manager.log_interaction(user_input=..., agent_response=...,
     model=..., timestamp=datetime.now().isoformat()) *)
Definition log_interaction `{Runtime} (user_input : string)
    (agent_response : value) (model : string) : M unit :=
  λ s, (Ok (), {| memory_manager := memory_manager s;
                  log_manager :=
                    (log_manager s ++
                     [ {| timestamp := isoformat_now (trace s);
                          log_model := model;
                          log_user_input := user_input;
                          agent_response := agent_response |} ])%list;
                  trace := trace s |}).

(* self.prompt_manager.get_messages(user_input, self.memory_manager.get_history()) *)
Definition build_messages (self : t) (user_input : string) : M (list message) :=
  λ s, (PromptManager.get_messages (prompt_manager self) user_input
          (Some (MemoryManager.get_history (memory_manager s)
                   MemoryManager.default_limit))
          None, s).

(* next((t for t in self.tools if t.__class__.__name__.lower() == tool_name), None);
   iterating over None raises TypeError *)
Definition find_tool (tools : option (list Tool)) (tool_name : string)
    : outcome (option Tool) :=
  match tools with
  | None => Raise TypeError
  | Some ts =>
      Ok (List.find (λ t, bool_decide (lower (class_name t) = tool_name)) ts)
  end.

(* for tool_call in tool_calls: ... results.append(result) *)
Fixpoint tool_calls_loop (tools : option (list Tool))
    (tool_calls : list tool_call) (results : list pyobj) : M (list pyobj) :=
  match tool_calls with
  | [] => ret results
  | tool_call :: rest =>
      let tool_name := function_name tool_call in
      let! tool := lift (find_tool tools tool_name) in
      match tool with
      | Some tool =>
          let! result := run_tool tool (function_arguments tool_call) in
          tool_calls_loop tools rest (results ++ [result])%list
      | None => tool_calls_loop tools rest results
      end
  end.

Definition handle_tool_calls (self : t) (tool_calls : list tool_call)
    : M (list pyobj) :=
  tool_calls_loop (tools self) tool_calls [].

(** [response.tool_calls] and [response.content] need a structured
    response; a [str] has neither attribute. *)
Definition as_structured (r : response) : outcome structured :=
  match r with
  | RStructured o => Ok o
  | RText _ => Raise AttributeError
  end.

Definition assistant_tool_message (r : structured) : message :=
  {[ "role" := VStr "assistant";
     "content" := value_of_content (content r);
     "tool_calls" := VToolCalls (tool_calls r) ]}.

Definition tool_message `{Runtime} (tool_results : list pyobj) : message :=
  {[ "role" := VStr "tool"; "content" := VStr (py_str tool_results) ]}.

Definition user_message (user_input : string) : message :=
  {[ "role" := VStr "user"; "content" := VStr user_input ]}.

Definition assistant_message (c : value) : message :=
  {[ "role" := VStr "assistant"; "content" := c ]}.

(* while True: ... *)
Fixpoint aprocess_loop `{Runtime} (fuel : nat) (self : t) (model : string)
    (messages : list message) : M response :=
  match fuel with
  | O => lift (Stuck OutOfFuel)
  | S fuel' =>
      let! response := chat_completion self model messages (tools self) in
      let! r := lift (as_structured response) in
      match tool_calls r with
      | [] => ret response
      | _ :: _ =>
          let! tool_results := handle_tool_calls self (tool_calls r) in
          aprocess_loop fuel' self model
            (messages ++ [assistant_tool_message r; tool_message tool_results])%list
      end
  end.

Definition aprocess `{Runtime} (fuel : nat) (self : t)
    (user_input model : string) : M response :=
  let! messages := build_messages self user_input in
  let! response := aprocess_loop fuel self model messages in
  let! _ := memory_add (user_message user_input) in
  let! _ := memory_add (assistant_message (value_of_response response)) in
  let! _ := log_interaction user_input (value_of_response response) model in
  ret response.

Definition process `{Runtime} (self : t) (user_input model : string) : M response :=
  let! messages := build_messages self user_input in
  let! response := chat_completion self model messages None in
  let! _ := memory_add (user_message user_input) in
  let! _ := memory_add (assistant_message (value_of_response response)) in
  let! _ := log_interaction user_input (value_of_response response) model in
  ret response.

(* __init__(self, llm, system_prompt, tools=None) *)
Definition init (llm : LLMBase) (system_prompt : string)
    (tools : option (list Tool)) : outcome t :=
  do pm <- PromptManager.init system_prompt None;
  Ok {| llm := llm; prompt_manager := pm; tools := tools |}.

Definition init_state : state :=
  {| memory_manager := MemoryManager.init MemoryManager.default_max_history;
     log_manager := [];
     trace := [] |}.

End Agent.

(** ** ReactAgent (react_agent.py) *)

Module ReactAgent.
Import Agent.

Definition marker : string := "[FINAL ANSWER]".

(** [marker in response] and [response.replace] need a [str]. *)
Definition as_text (r : response) : outcome string :=
  match r with
  | RText s => Ok s
  | RStructured _ => Raise TypeError
  end.

Fixpoint process_loop `{Runtime} (fuel : nat) (self : Agent.t)
    (user_input model : string) (messages : list message) : M string :=
  match fuel with
  | O => lift (Stuck OutOfFuel)
  | S fuel' =>
      let! response := chat_completion self model messages None in
      let! text := lift (as_text response) in
      if contains marker text then
        let final_answer := strip (replace marker EmptyString text) in
        let! _ := memory_add (user_message user_input) in
        let! _ := memory_add (assistant_message (VStr final_answer)) in
        let! _ := log_interaction user_input (VStr final_answer) model in
        ret final_answer
      else
        process_loop fuel' self user_input model
          (messages ++ [assistant_message (VStr text)])%list
  end.

Definition process `{Runtime} (fuel : nat) (self : Agent.t)
    (user_input model : string) : M string :=
  let! messages := build_messages self user_input in
  process_loop fuel self user_input model messages.

(** [marker in response.content] needs a [str] content. *)
Definition content_text (r : structured) : outcome string :=
  match content r with
  | Some s => Ok s
  | None => Raise TypeError
  end.

Fixpoint aprocess_loop `{Runtime} (fuel : nat) (self : Agent.t)
    (user_input model : string) (messages : list message) : M string :=
  match fuel with
  | O => lift (Stuck OutOfFuel)
  | S fuel' =>
      let! response := chat_completion self model messages (tools self) in
      let! r := lift (as_structured response) in
      let! text := lift (content_text r) in
      if contains marker text then
        let final_answer := strip (replace marker EmptyString text) in
        let! _ := memory_add (user_message user_input) in
        let! _ := memory_add (assistant_message (VStr final_answer)) in
        let! _ := log_interaction user_input (VStr final_answer) model in
        ret final_answer
      else
        match tool_calls r with
        | _ :: _ =>
            let! tool_results := handle_tool_calls self (tool_calls r) in
            aprocess_loop fuel' self user_input model
              (messages ++ [assistant_tool_message r; tool_message tool_results])%list
        | [] =>
            aprocess_loop fuel' self user_input model
              (messages ++ [assistant_message (value_of_content (content r))])%list
        end
  end.

Definition aprocess `{Runtime} (fuel : nat) (self : Agent.t)
    (user_input model : string) : M string :=
  let! messages := build_messages self user_input in
  aprocess_loop fuel self user_input model messages.

End ReactAgent.

(** ** ReActPromptTemplate (react_agent.py): the step formatters *)

Module ReActPromptTemplate.

Definition format_thought (thought : string) : string := "Thought: " +:+ thought.

Definition format_observation (observation : string) : string :=
  "Observation: " +:+ observation.

Definition format_final_answer (answer : string) : string :=
  "[FINAL ANSWER] " +:+ answer.

End ReActPromptTemplate.

(** * Sample inputs *)

(** An example pair of a formatter. *)
Definition sample_example : gmap string string :=
  {[ "input" := "2+2"; "output" := "4" ]}.

(** [PromptFormatter(role=role, examples=[sample_example], format_type=ft)] *)
Definition sample_formatter (role : string) (ft : PromptFormatType) : PromptFormatter.t :=
  PromptFormatter.init (Some role) None None None (Some [sample_example]) ft.

(** [PromptManager("You are helpful")] *)
Definition sample_manager : PromptManager.t :=
  {| PromptManager.system_prompt := "You are helpful";
     PromptManager.variables := ∅;
     PromptManager.default_messages := [ mk_message "system" "You are helpful" ] |}.




(** The first name of a list of field names that [kw] does not bind. *)
Definition first_missing (kw : gmap string string) (fs : list string) : option string :=
  List.find (λ k, bool_decide (kw !! k = None)) fs.











(** * Vocabulary of the statements *)

(** The state [s] with the trace [tr]. *)
Definition with_trace (s : Agent.state) (tr : list event) : Agent.state :=
  {| Agent.memory_manager := Agent.memory_manager s;
     Agent.log_manager := Agent.log_manager s;
     Agent.trace := tr |}.

(** The first declared tool whose lower-cased class name is [name]. *)
Definition resolve (ts : list Tool) (name : string) : option Tool :=
  List.find (λ t, bool_decide (lower (class_name t) = name)) ts.

(** The requests that resolve to a tool, in request order, each with its
    tool and its arguments. *)
Definition matched_calls (ts : list Tool) (calls : list tool_call) : list (Tool * kwargs) :=
  omap (λ tc, (λ t, (t, function_arguments tc)) <$> resolve ts (function_name tc)) calls.

(** [rs] are the results of running the tools of [matched] one after the
    other, the first one after the calls of [tr]. *)
Fixpoint runs_ok (tr : list event) (matched : list (Tool * kwargs)) (rs : list pyobj) : Prop :=
  match matched, rs with
  | [], [] => True
  | (t, kw) :: matched', r :: rs' =>
      arun t tr kw = Ok r ∧
      runs_ok (tr ++ [ToolRun (class_name t) kw (Ok r)]) matched' rs'
  | _, _ => False
  end.

(** The tool runs of one round, with their results. *)
Definition tool_events (matched : list (Tool * kwargs)) (rs : list pyobj) : list event :=
  zip_with (λ tkw r, ToolRun (class_name tkw.1) tkw.2 (Ok r)) matched rs.

(** A tool named [CalendlyTool] that returns its [invitee_name] argument. *)
Definition calendly_tool : Tool :=
  {| class_name := "CalendlyTool";
     arun := λ _ kw, match kw !! "invitee_name" with
                     | Some v => Ok v
                     | None => Raise TypeError
                     end |}.

Definition sample_runtime : Runtime :=
  {| py_str := λ rs, "[...]"; isoformat_now := λ _, "2024-01-01T00:00:00" |}.

(** In the calls [evs] of a turn that ended with [out], a call that raised
    is the last one, and the turn ended with its exception. *)
Definition failure_is_final {A} (evs : list event) (out : outcome A) : Prop :=
  ∀ before ev after e,
    evs = (before ++ ev :: after)%list → event_raised ev = Some e →
    after = [] ∧ out = Raise e.

(** A turn that raises leaves the memory and the log as they were, and no
    call follows one that raised. *)
Definition turn_safe {A} (turn : Agent.M A) : Prop :=
  ∀ s out s', turn s = (out, s') →
    (∀ e, out = Raise e →
       Agent.memory_manager s' = Agent.memory_manager s ∧
       Agent.log_manager s' = Agent.log_manager s) ∧
    ∃ evs, Agent.trace s' = (Agent.trace s ++ evs)%list ∧ failure_is_final evs out.

(** A computation that only calls the collaborators: it never writes the
    memory or the log. *)
Definition external {A} (m : Agent.M A) : Prop :=
  ∀ s out s', m s = (out, s') →
    Agent.memory_manager s' = Agent.memory_manager s ∧
    Agent.log_manager s' = Agent.log_manager s ∧
    ∃ evs, Agent.trace s' = (Agent.trace s ++ evs)%list ∧ failure_is_final evs out.

(** A backend that is down. *)
Definition failing_llm : LLMBase := λ _ _ _ _, Raise (Exception "connection refused").

(** A backend that asks once for the tool [name], then answers. *)
Definition one_tool_call_llm (name : string) : LLMBase :=
  λ tr _ _ _,
    match List.filter is_llm_call tr with
    | [] => Ok (RStructured
                  {| content := None;
                     tool_calls := [ {| function_name := name;
                                        function_arguments :=
                                          {[ "invitee_name" := PyStr "Ada" ]} |} ] |})
    | _ => Ok (RStructured {| content := Some "Booked."; tool_calls := [] |})
    end.

Definition sample_agent (llm : LLMBase) : Agent.t :=
  {| Agent.llm := llm;
     Agent.prompt_manager := sample_manager;
     Agent.tools := Some [calendly_tool] |}.

(** The backend answers the texts [thoughts] one after the other and then
    [final], when it is called after [tr] with [msgs] and each answer is
    appended to the messages as an assistant message. *)
Fixpoint react_script (llm : LLMBase) (tr : list event) (model : string)
    (msgs : list message) (thoughts : list string) (final : string) : Prop :=
  match thoughts with
  | [] => llm tr model msgs None = Ok (RText final)
  | r :: rest =>
      llm tr model msgs None = Ok (RText r) ∧
      react_script llm (tr ++ [LLMCall model msgs (Ok (RText r))]) model
        (msgs ++ [ ({[ "role" := VStr "assistant"; "content" := VStr r ]} : message) ])
        rest final
  end.

(** The backend calls of such a turn. *)
Fixpoint react_events (model : string) (msgs : list message)
    (answers : list string) : list event :=
  match answers with
  | [] => []
  | r :: rest =>
      LLMCall model msgs (Ok (RText r)) ::
      react_events model
        (msgs ++ [ ({[ "role" := VStr "assistant"; "content" := VStr r ]} : message) ])
        rest
  end.

(** A backend that thinks twice, then answers. *)
Definition react_llm : LLMBase :=
  λ tr _ _ _,
    match length (List.filter is_llm_call tr) with
    | 0%nat => Ok (RText "Thought: I need the sum")
    | 1%nat => Ok (RText "Action: add")
    | _ => Ok (RText "[FINAL ANSWER] 4 ")
    end.

(** The state after a turn that started in [s], made the calls [evs] and
    ended with [answer]: the user message and the assistant message are
    added to the memory, and the interaction is logged. *)
Definition committed `{Runtime} (s : Agent.state) (user_input : string)
    (answer : value) (model : string) (evs : list event) : Agent.state :=
  {| Agent.memory_manager :=
       MemoryManager.add
         (MemoryManager.add (Agent.memory_manager s)
            {[ "role" := VStr "user"; "content" := VStr user_input ]})
         {[ "role" := VStr "assistant"; "content" := answer ]};
     Agent.log_manager :=
       (Agent.log_manager s ++
        [ {| timestamp := isoformat_now (Agent.trace s ++ evs);
             log_model := model;
             log_user_input := user_input;
             agent_response := answer |} ])%list;
     Agent.trace := (Agent.trace s ++ evs)%list |}.

(** The last [n] elements of a list. *)
Definition last_n {A} (n : nat) (l : list A) : list A :=
  drop (length l - n) l.

(** The sections that are present, in the order of the dictionary. *)
Definition present (self : PromptFormatter.t) (examples_str user_input : string)
    : list (string * string) :=
  (((λ v, ("ROLE", v)) <$> option_list (PromptFormatter.role self)) ++
   ((λ v, ("TASK", v)) <$> option_list (PromptFormatter.task self)) ++
   ((λ v, ("GUIDE", v)) <$> option_list (PromptFormatter.guide self)) ++
   ((λ v, ("OUTPUT_FORMAT", v)) <$> option_list (PromptFormatter.output_format self)) ++
   [("EXAMPLES", examples_str); ("USER_INPUT", user_input)])%list.

(** The end of a turn: two additions to the memory and one log entry. *)
Definition commit `{Runtime} {A} (user_input : string) (answer : value)
    (model : string) (result : A) : Agent.M A :=
  Agent.bindM (Agent.memory_add (Agent.user_message user_input)) (λ _,
  Agent.bindM (Agent.memory_add (Agent.assistant_message answer)) (λ _,
  Agent.bindM (Agent.log_interaction user_input answer model) (λ _,
  Agent.ret result))).

(** A text without braces. *)
Fixpoint brace_free (t : string) : bool :=
  match t with
  | EmptyString => true
  | String c t' =>
      negb (bool_decide (c = "{"%char)) && negb (bool_decide (c = "}"%char)) &&
      brace_free t'
  end.

(** The input and the output of an example that has both. *)
Definition example_fields (example : gmap string string) : option (string * string) :=
  match example !! "input", example !! "output" with
  | Some i, Some o => Some (i, o)
  | _, _ => None
  end.

(** The block of the [i]-th example. *)
Definition example_block (i : nat) (io : string * string) : string :=
  "Example " +:+ pretty i +:+ nl +:+
  "Input: " +:+ io.1 +:+ nl +:+
  "Output: " +:+ io.2 +:+ nl.

(** The wrapping of a section in the markdown and in the xml style. *)
Definition wrap_section (ft : PromptFormatType) (kv : string * string) : string :=
  match ft with
  | MARKDOWN => "## " +:+ kv.1 +:+ nl +:+ kv.2
  | XML => "<" +:+ lower kv.1 +:+ ">" +:+ kv.2 +:+ "</" +:+ lower kv.1 +:+ ">"
  | PLAIN => kv.2
  end.

(** A backend that never gives a final answer. *)
Definition thinking_llm : LLMBase := λ _ _ _ _, Ok (RText "Thought: let me think").

(** A backend that always asks for a tool nobody declared. *)
Definition asking_llm : LLMBase :=
  λ _ _ _ _,
    Ok (RStructured
          {| content := None;
             tool_calls := [ {| function_name := "search"; function_arguments := ∅ |} ] |}).

(** A backend that gives a final answer and asks for a tool at once. *)
Definition answering_llm : LLMBase :=
  λ _ _ _ _,
    Ok (RStructured
          {| content := Some "[FINAL ANSWER] 4";
             tool_calls := [ {| function_name := "calendlytool";
                                function_arguments :=
                                  {[ "invitee_name" := PyStr "Ada" ]} |} ] |}).

(** A tool that is down. *)
Definition broken_tool : Tool :=
  {| class_name := "Search"; arun := λ _ _, Raise (Exception "timeout") |}.

(** * Properties *)

(** ** Memory *)

Section memory_facts.
Import MemoryStore MemoryManager.

Lemma slice_from_zero {A} (l : list A) : slice_from 0 l = l.
Proof.
  unfold slice_from. simpl.
  replace (Z.min 0 (Z.of_nat (length l))) with 0 by lia. done.
Qed.

(** [l[-k:]] for a positive [k] keeps the last [k] elements. *)
Lemma slice_from_last {A} (k : Z) (l : list A) :
  0 < k → slice_from (- k) l = drop (length l - Z.to_nat k) l.
Proof.
  intros Hk. unfold slice_from.
  destruct (Z.ltb_spec (- k) 0) as [_|?]; [|lia].
  f_equal. lia.
Qed.

Lemma slice_from_length_le {A} (k : Z) (l : list A) :
  0 < k → Z.of_nat (length (slice_from (- k) l)) ≤ k.
Proof.
  intros Hk. rewrite slice_from_last by done. rewrite length_drop. lia.
Qed.

Lemma slice_from_short {A} (k : Z) (l : list A) :
  0 < k → Z.of_nat (length l) ≤ k → slice_from (- k) l = l.
Proof.
  intros Hk Hl. rewrite slice_from_last by done.
  replace (length l - Z.to_nat k)%nat with 0%nat by lia. done.
Qed.

Lemma slice_from_one {A} (l : list A) : slice_from 1 l = drop 1 l.
Proof.
  unfold slice_from. simpl. destruct l as [|x l]; [done|].
  replace (Z.min 1 (Z.of_nat (length (x :: l)))) with 1; [done|].
  rewrite length_cons. lia.
Qed.

Lemma add_history_history (st : MemoryStore.t) (m : message) :
  history (add_history st m) = (history st ++ (if well_formed m then [m] else []))%list.
Proof.
  unfold add_history. destruct (well_formed m); simpl; [done|].
  by rewrite app_nil_r.
Qed.

Lemma add_history_cache (st : MemoryStore.t) (m : message) :
  cache (add_history st m) = cache st.
Proof. unfold add_history. by destruct (well_formed m). Qed.

Lemma foldl_add_history (l : list message) (st : MemoryStore.t) :
  history (foldl add_history st l) =
  (history st ++ List.filter well_formed l)%list.
Proof.
  revert st. induction l as [|m l IH]; intros st; simpl.
  - by rewrite app_nil_r.
  - rewrite IH, add_history_history.
    destruct (well_formed m); simpl; [by rewrite <- app_assoc|].
    by rewrite app_nil_r.
Qed.

Lemma filter_well_formed_id (l : list message) :
  Forall (λ m, well_formed m = true) l → List.filter well_formed l = l.
Proof.
  induction 1 as [|m l Hm _ IH]; simpl; [done|]. by rewrite Hm, IH.
Qed.

(** With a maximum of 20 or more, the guard of [add] never holds: the
    length it tests is that of the last [default_limit = 20] entries. *)
Lemma add_no_eviction (self : MemoryManager.t) (m : message) :
  20 ≤ max_history self →
  store (add self m) = add_history (store self) m ∧
  max_history (add self m) = max_history self.
Proof.
  intros HN. unfold add. cbv zeta. unfold MemoryStore.get_history.
  set (h := slice_from (- MemoryStore.default_limit) (history (add_history (store self) m))).
  assert (Hle : Z.of_nat (length h) ≤ 20) by (by apply slice_from_length_le).
  destruct (Z.gtb_spec (Z.of_nat (length h)) (max_history self)) as [Hgt|_]; [lia|done].
Qed.

Lemma add_all_no_eviction (ms : list message) (self : MemoryManager.t) :
  20 ≤ max_history self →
  history (store (add_all self ms)) =
  (history (store self) ++ List.filter well_formed ms)%list.
Proof.
  revert self. induction ms as [|m ms IH]; intros self HN; simpl.
  - by rewrite app_nil_r.
  - destruct (add_no_eviction self m HN) as [Hst Hmax].
    unfold add_all in IH. rewrite IH by lia.
    rewrite Hst, add_history_history.
    destruct (well_formed m); simpl; [by rewrite <- app_assoc|].
    by rewrite app_nil_r.
Qed.

(** With a maximum [N] below 20, one [add] of a well-formed message to a
    history of at most [N] well-formed messages appends it and, on
    overflow, drops the oldest entry. *)
Lemma add_small_max (self : MemoryManager.t) (m : message) :
  0 ≤ max_history self < 20 →
  Forall (λ m, well_formed m = true) (history (store self)) →
  Z.of_nat (length (history (store self))) ≤ max_history self →
  well_formed m = true →
  history (store (add self m)) =
    last_n (Z.to_nat (max_history self)) (history (store self) ++ [m]) ∧
  max_history (add self m) = max_history self.
Proof.
  intros HN Hwf Hlen Hm. unfold add. cbv zeta.
  unfold MemoryStore.get_history, MemoryStore.default_limit.
  assert (Hh : history (add_history (store self) m) = (history (store self) ++ [m])%list)
    by (by rewrite add_history_history, Hm).
  rewrite Hh.
  rewrite (slice_from_short 20) by (rewrite ?length_app; simpl; lia).
  unfold last_n. rewrite length_app. simpl.
  destruct (Z.gtb_spec (Z.of_nat (length (history (store self)) + 1)) (max_history self))
    as [Hgt|Hle]; simpl.
  - split; [|done].
    rewrite foldl_add_history. simpl.
    rewrite slice_from_one.
    rewrite filter_well_formed_id.
    + f_equal. lia.
    + apply Forall_drop. apply Forall_app. split; [done|]. by constructor.
  - split; [|done]. rewrite Hh.
    replace (length (history (store self)) + 1 - Z.to_nat (max_history self))%nat
      with 0%nat by lia.
    done.
Qed.

Lemma last_n_snoc {A} (n : nat) (l : list A) (x : A) :
  last_n n (last_n n l ++ [x]) = last_n n (l ++ [x]).
Proof.
  unfold last_n.
  rewrite !length_app, !skipn_app, drop_drop, !length_drop. simpl length.
  f_equal; f_equal; lia.
Qed.

Lemma last_n_length {A} (n : nat) (l : list A) :
  (length (last_n n l) ≤ n)%nat.
Proof. unfold last_n. rewrite length_drop. lia. Qed.

Lemma last_n_app {A} (n : nat) (l k : list A) :
  last_n n (last_n n l ++ k) = last_n n (l ++ k).
Proof.
  induction k as [|x k IH] using rev_ind.
  - rewrite !app_nil_r. unfold last_n at 1.
    pose proof (last_n_length n l).
    replace (length (last_n n l) - n)%nat with 0%nat by lia.
    done.
  - rewrite !app_assoc.
    rewrite <- (last_n_snoc _ (last_n n l ++ k)).
    rewrite IH. apply last_n_snoc.
Qed.

(** For a maximum [N] below 20 the history is bounded: after any
    sequence of [add] calls on a fresh manager it holds the last [N]
    well-formed messages, in order. *)
Lemma add_all_small_max (N : Z) (ms : list message) :
  0 ≤ N < 20 →
  history (store (add_all (MemoryManager.init N) ms)) =
  last_n (Z.to_nat N) (List.filter well_formed ms).
Proof.
  intros HN.
  cut (∀ ms (self : MemoryManager.t),
         max_history self = N →
         Forall (λ m, well_formed m = true) (history (store self)) →
         Z.of_nat (length (history (store self))) ≤ N →
         history (store (add_all self ms)) =
         last_n (Z.to_nat N) (history (store self) ++ List.filter well_formed ms)).
  { intros Hcut. rewrite (Hcut ms (MemoryManager.init N)); simpl; try done. lia. }
  clear ms. intros ms. induction ms as [|m ms IH]; intros self Hmax Hwf Hlen.
  - simpl. rewrite app_nil_r. unfold last_n.
    replace (length (history (store self)) - Z.to_nat N)%nat with 0%nat by lia.
    done.
  - simpl. destruct (well_formed m) eqn:Hm.
    + destruct (add_small_max self m) as [Hh Hmax']; try done; try lia.
      rewrite Hmax in Hh.
      unfold add_all in IH. rewrite IH.
      * rewrite Hh, last_n_app. by rewrite <- app_assoc.
      * congruence.
      * rewrite Hh. unfold last_n. apply Forall_drop, Forall_app.
        split; [done|]. by constructor.
      * rewrite Hh. pose proof (last_n_length (Z.to_nat N) (history (store self) ++ [m])).
        lia.
    + assert (Hadd : add self m = self).
      { unfold add, add_history. cbv zeta. rewrite Hm.
        unfold MemoryStore.get_history, MemoryStore.default_limit.
        rewrite (slice_from_short 20) by lia.
        destruct (Z.gtb_spec (Z.of_nat (length (history (store self)))) (max_history self));
          [lia|]. by destruct self. }
      rewrite Hadd. by apply IH.
Qed.

(** [get_history()] then returns this whole history: its default limit of
    20 is above the maximum. *)
Lemma get_history_small_max (N : Z) (ms : list message) :
  0 ≤ N < 20 →
  MemoryManager.get_history (add_all (MemoryManager.init N) ms)
    MemoryManager.default_limit =
  last_n (Z.to_nat N) (List.filter well_formed ms).
Proof.
  intros HN. unfold MemoryManager.get_history, MemoryStore.get_history.
  rewrite add_all_small_max by done.
  apply slice_from_short; [done|].
  pose proof (last_n_length (Z.to_nat N) (List.filter well_formed ms)).
  unfold MemoryManager.default_limit. lia.
Qed.

End memory_facts.

(** C10: with [limit=0] the suffix slice [history[-0:]] is the whole list,
    so that [MemoryStore.get_history] and [MemoryManager.get_history]
    return the entire history. *)
Theorem C10_get_history_limit_zero (st : MemoryStore.t) (mm : MemoryManager.t) :
  MemoryStore.get_history st 0 = MemoryStore.history st ∧
  MemoryManager.get_history mm 0 = MemoryStore.history (MemoryManager.store mm).
Proof.
  unfold MemoryManager.get_history, MemoryStore.get_history. simpl.
  by rewrite !slice_from_zero.
Qed.

(** C1, at the default maximum of 20: after 21 well-formed messages are
    added to a fresh [MemoryManager()], the stored history has 21 entries,
    the oldest message is still its first entry, and [get_history(21)]
    returns all 21; only the default limit of [get_history()] cuts the view
    to the last 20.  No entry was evicted. *)
Theorem C1_default_maximum_never_evicts :
  let mm := MemoryManager.add_all
              (MemoryManager.init MemoryManager.default_max_history)
              (user_messages 21) in
  length (MemoryStore.history (MemoryManager.store mm)) = 21%nat ∧
  MemoryStore.history (MemoryManager.store mm) !! 0%nat = Some (mk_message "user" "0") ∧
  MemoryManager.get_history mm 21 = user_messages 21 ∧
  MemoryManager.get_history mm MemoryManager.default_limit = drop 1 (user_messages 21).
Proof. cbv zeta. repeat split; vm_compute; reflexivity. Qed.

(** ** Placeholder substitution *)

Lemma emit_raise (v : string) (e : exn) : emit v (Raise e) = Raise e.
Proof. done. Qed.

Lemma string_app_cons (c : ascii) (s t : string) :
  String c s +:+ t = String c (s +:+ t).
Proof. reflexivity. Qed.

Lemma string_app_assoc (s1 s2 s3 : string) :
  (s1 +:+ s2) +:+ s3 = s1 +:+ s2 +:+ s3.
Proof.
  induction s1 as [|c s1 IH]; [reflexivity|].
  by rewrite !string_app_cons, IH.
Qed.

Lemma string_app_nil_r (s : string) : s +:+ EmptyString = s.
Proof.
  induction s as [|c s IH]; [done|]. by rewrite string_app_cons, IH.
Qed.













Lemma first_missing_Some (kw : gmap string string) (fs : list string) (k : string) :
  first_missing kw fs = Some k → k ∈ fs ∧ kw !! k = None.
Proof.
  unfold first_missing. intros Hfind.
  apply find_some in Hfind as [Hin Hb].
  apply bool_decide_eq_true in Hb. by rewrite list_elem_of_In.
Qed.


(** ** PromptFormatter *)

Section formatter_facts.
Import PromptFormatter.

(** With examples, the assembled prompt is the rendering of the present
    sections in the fixed order. *)
Lemma assemble_present (self : PromptFormatter.t) (user_input e : string) :
  examples_block self = Ok (Some e) →
  assemble self user_input =
    Ok (render (format_type self) (present self e user_input)).
Proof.
  intros He. unfold assemble, present. rewrite He. simpl.
  by destruct (role self), (task self), (guide self), (output_format self).
Qed.

(** In the plain style the prompt is made of the names of the sections,
    whatever their contents. *)
Lemma assemble_plain_names (self : PromptFormatter.t) (user_input e : string) :
  format_type self = PLAIN →
  examples_block self = Ok (Some e) →
  assemble self user_input = Ok (join nl2 (present self e user_input).*1).
Proof.
  intros Hft He. rewrite (assemble_present _ _ e He). by rewrite Hft.
Qed.

Lemma examples_block_empty (self : PromptFormatter.t) :
  examples self = [] → examples_block self = Ok None.
Proof. unfold examples_block. by intros ->. Qed.

End formatter_facts.

(** C5: a formatter built with [examples=[]] or without examples does not
    render: [format_prompt] reads the local [examples_str], which was never
    assigned, and raises [UnboundLocalError] on every input. *)
Theorem C5_empty_examples_raise (role task guide output_format : option string)
    (ft : PromptFormatType) (user_input : string)
    (variables : option (gmap string string)) :
  PromptFormatter.format_prompt
    (PromptFormatter.init role task guide output_format None ft)
    user_input variables = Raise (UnboundLocalError "examples_str") ∧
  PromptFormatter.format_prompt
    (PromptFormatter.init role task guide output_format (Some []) ft)
    user_input variables = Raise (UnboundLocalError "examples_str").
Proof. done. Qed.




(** C7, plain style: a formatter with a role and one example, rendered in
    the plain style, yields the names of its sections joined by blank
    lines, and not their contents. *)
Theorem C7_plain_renders_section_names :
  PromptFormatter.format_prompt (sample_formatter "You are a tutor" PLAIN)
    "What is 3+3?" None =
    Ok (join nl2 ["ROLE"; "EXAMPLES"; "USER_INPUT"]) ∧
  PromptFormatter.examples_block (sample_formatter "You are a tutor" PLAIN) =
    Ok (Some ("Examples:" +:+ nl +:+ "Example 1" +:+ nl +:+
              "Input: 2+2" +:+ nl +:+ "Output: 4" +:+ nl)) ∧
  PromptFormatter.format_prompt (sample_formatter "You are a tutor" PLAIN)
    "What is 3+3?" None ≠
    Ok (join nl2 ["You are a tutor";
                  "Examples:" +:+ nl +:+ "Example 1" +:+ nl +:+
                  "Input: 2+2" +:+ nl +:+ "Output: 4" +:+ nl;
                  "What is 3+3?"]).
Proof. vm_compute. repeat split; discriminate. Qed.

(** ** PromptManager *)

(** [sample_manager] is what the constructor builds. *)
Lemma sample_manager_init :
  PromptManager.init "You are helpful" None = Ok sample_manager.
Proof. vm_compute. reflexivity. Qed.


(** The system message is rendered once, when the manager is built. *)
Lemma init_default_messages (system_prompt : string)
    (variables : option (gmap string string)) (pm : PromptManager.t) :
  PromptManager.init system_prompt variables = Ok pm →
  ∃ c, PromptManager._format_prompt (default ∅ variables) system_prompt
         (Some (default ∅ variables)) = Ok c ∧
       PromptManager.default_messages pm = [ mk_message "system" c ] ∧
       PromptManager.variables pm = default ∅ variables.
Proof.
  unfold PromptManager.init. intros H.
  destruct (PromptManager._format_prompt _ _ _) as [c| |]; simplify_eq/=.
  by exists c.
Qed.




(** ** Tool dispatch *)

Section dispatch_facts.
Import Agent.

Lemma with_trace_id (s : state) : with_trace s (trace s ++ []) = s.
Proof. destruct s. unfold with_trace. simpl. by rewrite app_nil_r. Qed.

(** [resolve] returns the first tool of the list with the requested
    lower-cased class name. *)
Lemma resolve_Some (ts : list Tool) (name : string) (t : Tool) :
  resolve ts name = Some t →
  ∃ before after, ts = (before ++ t :: after)%list ∧
    lower (class_name t) = name ∧
    Forall (λ t', lower (class_name t') ≠ name) before.
Proof.
  unfold resolve. induction ts as [|t0 ts IH]; simpl; [done|].
  case_bool_decide as Hn.
  - intros [= ->]. by exists [], ts.
  - intros Hfind. destruct (IH Hfind) as (before & after & -> & Hl & Hb).
    exists (t0 :: before), after. repeat split; [done|]. by constructor.
Qed.

Lemma resolve_None (ts : list Tool) (name : string) :
  resolve ts name = None ↔ Forall (λ t, lower (class_name t) ≠ name) ts.
Proof.
  unfold resolve. induction ts as [|t0 ts IH]; simpl.
  - split; [by constructor|done].
  - case_bool_decide as Hn.
    + split; [done|]. by inversion 1.
    + rewrite IH. split; [by constructor|]. by inversion 1.
Qed.

Lemma tool_calls_loop_spec (ts : list Tool) (calls : list tool_call) :
  ∀ (acc : list pyobj) (s : state) (results : list pyobj) (s' : state),
    tool_calls_loop (Some ts) calls acc s = (Ok results, s') ↔
    ∃ new, results = (acc ++ new)%list ∧
      runs_ok (trace s) (matched_calls ts calls) new ∧
      s' = with_trace s (trace s ++ tool_events (matched_calls ts calls) new).
Proof.
  induction calls as [|tc calls IH]; intros acc s results s'.
  - simpl. unfold ret. split.
    + intros [= <- <-]. exists []. by rewrite app_nil_r, with_trace_id.
    + intros (new & -> & Hruns & ->). destruct new; [|done].
      by rewrite app_nil_r, with_trace_id.
  - simpl. unfold matched_calls. simpl. fold (matched_calls ts calls).
    unfold bindM at 1. unfold lift at 1. simpl. fold (resolve ts (function_name tc)).
    destruct (resolve ts (function_name tc)) as [t|] eqn:Hres; simpl.
    + unfold bindM at 1. unfold run_tool at 1. unfold bindM at 1. simpl.
      unfold lift.
      destruct (arun t (trace s) (function_arguments tc)) as [v|e|w] eqn:Hrun.
      * rewrite IH. simpl. split.
        -- intros (new & -> & Hruns & ->). exists (v :: new).
           split; [by rewrite <- app_assoc|]. split; [done|].
           unfold with_trace, tool_events. simpl. by rewrite <- app_assoc.
        -- intros (new & -> & Hruns & ->). destruct new as [|r new]; [done|].
           destruct Hruns as [Hr Hruns]. simplify_eq. exists new.
           split; [by rewrite <- app_assoc|]. split; [done|].
           unfold with_trace, tool_events. simpl. by rewrite <- app_assoc.
      * split; [done|]. intros (new & _ & Hruns & _).
        destruct new; [done|]. destruct Hruns. congruence.
      * split; [done|]. intros (new & _ & Hruns & _).
        destruct new; [done|]. destruct Hruns. congruence.
    + apply IH.
Qed.

End dispatch_facts.

(** C3 fails on a request that names the tool by its class name: the
    request [CalendlyTool] equals the class name of the declared tool, and
    the more so up to case, but no tool is run and no result is produced. *)
Lemma C3_class_name_request_dropped :
  let self := {| Agent.llm := λ _ _ _ _, Ok (RText "unused");
                 Agent.prompt_manager := sample_manager;
                 Agent.tools := Some [calendly_tool] |} in
  let request := {| function_name := "CalendlyTool";
                    function_arguments := {[ "invitee_name" := PyStr "Ada" ]} |} in
  function_name request = class_name calendly_tool ∧
  lower (function_name request) = lower (class_name calendly_tool) ∧
  Agent.handle_tool_calls self [request] Agent.init_state = (Ok [], Agent.init_state).
Proof. vm_compute. done. Qed.

(** C3, amended: a request resolves to the first declared tool whose
    lower-cased class name equals the requested name as it is written.
    [handle_tool_calls] runs the tools of the resolved requests in request
    order, each with the arguments of its request, and returns their
    results in that order; a request that resolves to no tool is skipped. *)
Theorem C3_handle_tool_calls (self : Agent.t) (ts : list Tool)
    (calls : list tool_call) (s : Agent.state) :
  Agent.tools self = Some ts →
  (∀ tc t, tc ∈ calls → resolve ts (function_name tc) = Some t →
     ∃ before after, ts = (before ++ t :: after)%list ∧
       lower (class_name t) = function_name tc ∧
       Forall (λ t', lower (class_name t') ≠ function_name tc) before) ∧
  (∀ results s',
     Agent.handle_tool_calls self calls s = (Ok results, s') ↔
     runs_ok (Agent.trace s) (matched_calls ts calls) results ∧
     s' = with_trace s (Agent.trace s ++ tool_events (matched_calls ts calls) results)) ∧
  ((∀ tc, tc ∈ calls → Forall (λ t, lower (class_name t) ≠ function_name tc) ts) →
     Agent.handle_tool_calls self calls s = (Ok [], s)).
Proof.
  intros Hts. split; [|split].
  - intros tc t _ Hres. by apply resolve_Some.
  - intros results s'. unfold Agent.handle_tool_calls. rewrite Hts.
    rewrite tool_calls_loop_spec. split.
    + intros (new & -> & Hruns & ->). done.
    + intros [Hruns ->]. by exists results.
  - intros Hnone. unfold Agent.handle_tool_calls. rewrite Hts.
    apply tool_calls_loop_spec. exists []. split; [done|].
    assert (Hm : matched_calls ts calls = []).
    { unfold matched_calls. induction calls as [|tc calls IH]; [done|]. simpl.
      rewrite (proj2 (resolve_None ts (function_name tc))).
      - simpl. apply IH. intros tc' Hin. apply Hnone. by right.
      - apply Hnone. by left. }
    rewrite Hm. simpl. by rewrite with_trace_id.
Qed.

Lemma C3_handle_tool_calls_witness :
  let self := {| Agent.llm := λ _ _ _ _, Ok (RText "unused");
                 Agent.prompt_manager := sample_manager;
                 Agent.tools := Some [calendly_tool] |} in
  let calls := [ {| function_name := "search"; function_arguments := ∅ |};
                 {| function_name := "calendlytool";
                    function_arguments := {[ "invitee_name" := PyStr "Ada" ]} |} ] in
  Agent.handle_tool_calls self calls Agent.init_state =
    (Ok [PyStr "Ada"],
     with_trace Agent.init_state
       [ToolRun "CalendlyTool" {[ "invitee_name" := PyStr "Ada" ]} (Ok (PyStr "Ada"))]).
Proof.
  intros self calls.
  apply (C3_handle_tool_calls self [calendly_tool] calls Agent.init_state eq_refl).
  vm_compute. done.
Defined.

(** ** Failed turns *)

Section turn_facts.
Import Agent.
Context `{Runtime}.

Lemma failure_is_final_nil {A} (out : outcome A) : failure_is_final [] out.
Proof. intros before ev after e Heq. by destruct before. Qed.

Lemma failure_is_final_app {A B} (evs1 evs2 : list event) (a : A) (out : outcome B) :
  failure_is_final evs1 (Ok a) → failure_is_final evs2 out →
  failure_is_final (evs1 ++ evs2) out.
Proof.
  intros H1 H2 before ev after e Heq Hev.
  apply app_eq_app in Heq as [l [[-> Hl]|[-> Hl]]].
  - destruct l as [|ev' l]; simpl in Hl.
    + apply (H2 [] ev after e); [by rewrite <- Hl|done].
    + injection Hl as <- ->.
      by destruct (H1 before ev l e eq_refl Hev) as [_ ?].
  - by apply (H2 l ev after e).
Qed.

(** A failure keeps its meaning when the type of the result changes. *)
Lemma failure_is_final_raise {A B} (evs : list event) (e : exn) :
  failure_is_final evs (Raise e : outcome A) →
  failure_is_final evs (Raise e : outcome B).
Proof.
  intros H1 before ev after e' Heq Hev.
  destruct (H1 before ev after e' Heq Hev) as [-> [= ->]]. done.
Qed.

Lemma failure_is_final_stuck {A B} (evs : list event) (w : stuck) :
  failure_is_final evs (Stuck w : outcome A) →
  failure_is_final evs (Stuck w : outcome B).
Proof.
  intros H1 before ev after e' Heq Hev.
  by destruct (H1 before ev after e' Heq Hev) as [_ ?].
Qed.

Lemma external_lift {A} (o : outcome A) : external (lift o).
Proof.
  intros s out s' [= <- <-]. repeat split.
  exists []. split; [by rewrite app_nil_r|apply failure_is_final_nil].
Qed.

Lemma external_ret {A} (a : A) : external (ret a).
Proof. apply (external_lift (Ok a)). Qed.

Lemma failure_is_final_singleton {A} (ev : event) (out : outcome A) :
  (∀ e, event_raised ev = Some e → out = Raise e) →
  failure_is_final [ev] out.
Proof.
  intros Hev before ev' after e Heq Hr.
  destruct before as [|? before]; simpl in Heq.
  - injection Heq as -> <-. split; [done|by apply Hev].
  - injection Heq as _ Heq. by destruct before.
Qed.

Lemma external_chat_completion (self : Agent.t) (model : string)
    (messages : list message) (tools : option (list Tool)) :
  external (chat_completion self model messages tools).
Proof.
  intros s out s'. unfold chat_completion, bindM, record, lift. simpl.
  destruct (llm self (trace s) model messages tools) as [r|e|w] eqn:Hr;
    intros [= <- <-]; simpl; repeat split; eexists; (split; [done|]);
    apply failure_is_final_singleton; simpl; congruence.
Qed.

Lemma external_run_tool (tool : Tool) (kw : kwargs) : external (run_tool tool kw).
Proof.
  intros s out s'. unfold run_tool, bindM, record, lift. simpl.
  destruct (arun tool (trace s) kw) as [r|e|w] eqn:Hr;
    intros [= <- <-]; simpl; repeat split; eexists; (split; [done|]);
    apply failure_is_final_singleton; simpl; congruence.
Qed.

Lemma external_build_messages (self : Agent.t) (user_input : string) :
  external (build_messages self user_input).
Proof.
  intros s out s' [= <- <-]. repeat split.
  exists []. split; [by rewrite app_nil_r|apply failure_is_final_nil].
Qed.

Lemma external_bind {A B} (m : M A) (f : A → M B) :
  external m → (∀ a, external (f a)) → external (bindM m f).
Proof.
  intros Hm Hf s out s'. unfold bindM.
  destruct (m s) as [[a|e|w] s1] eqn:Hms;
    destruct (Hm _ _ _ Hms) as (Hmem & Hlog & evs1 & Htr & Hfin).
  - intros Hfa. destruct (Hf a _ _ _ Hfa) as (Hmem' & Hlog' & evs2 & Htr' & Hfin').
    repeat split; [congruence..|].
    exists (evs1 ++ evs2)%list. split.
    + by rewrite Htr', Htr, <- app_assoc.
    + by eapply failure_is_final_app.
  - intros [= <- <-]. repeat split; [done..|].
    exists evs1. split; [done|]. by eapply failure_is_final_raise.
  - intros [= <- <-]. repeat split; [done..|].
    exists evs1. split; [done|]. by eapply failure_is_final_stuck.
Qed.

Lemma external_tool_calls_loop (tools : option (list Tool)) (calls : list tool_call) :
  ∀ results, external (tool_calls_loop tools calls results).
Proof.
  induction calls as [|tc calls IH]; intros results; simpl.
  - apply external_ret.
  - apply external_bind; [apply external_lift|]. intros [tool|]; [|apply IH].
    apply external_bind; [apply external_run_tool|]. intros r. apply IH.
Qed.

Lemma external_aprocess_loop (fuel : nat) (self : Agent.t) (model : string) :
  ∀ messages, external (aprocess_loop fuel self model messages).
Proof.
  induction fuel as [|fuel IH]; intros messages; simpl.
  - apply external_lift.
  - apply external_bind; [apply external_chat_completion|]. intros response.
    apply external_bind; [apply external_lift|]. intros r.
    destruct (tool_calls r); [apply external_ret|].
    apply external_bind; [apply external_tool_calls_loop|]. intros rs. apply IH.
Qed.

Lemma turn_safe_commit {A} (user_input : string) (answer : value)
    (model : string) (result : A) :
  turn_safe (commit user_input answer model result).
Proof.
  intros s out s' [= <- <-]. split; [done|].
  exists []. split; [by rewrite app_nil_r|apply failure_is_final_nil].
Qed.

Lemma turn_safe_bind {A B} (m : M A) (f : A → M B) :
  external m → (∀ a, turn_safe (f a)) → turn_safe (bindM m f).
Proof.
  intros Hm Hf s out s'. unfold bindM.
  destruct (m s) as [[a|e|w] s1] eqn:Hms;
    destruct (Hm _ _ _ Hms) as (Hmem & Hlog & evs1 & Htr & Hfin).
  - intros Hfa. destruct (Hf a _ _ _ Hfa) as (Hraise & evs2 & Htr' & Hfin').
    split.
    + intros e He. destruct (Hraise e He). split; congruence.
    + exists (evs1 ++ evs2)%list. split.
      * by rewrite Htr', Htr, <- app_assoc.
      * by eapply failure_is_final_app.
  - intros [= <- <-]. split; [done|].
    exists evs1. split; [done|]. by eapply failure_is_final_raise.
  - intros [= <- <-]. split; [done|].
    exists evs1. split; [done|]. by eapply failure_is_final_stuck.
Qed.

Lemma turn_safe_react_loop (fuel : nat) (self : Agent.t) (user_input model : string) :
  ∀ messages, turn_safe (ReactAgent.process_loop fuel self user_input model messages).
Proof.
  induction fuel as [|fuel IH]; intros messages; simpl.
  - intros s out s' [= <- <-]. split; [done|].
    exists []. split; [by rewrite app_nil_r|apply failure_is_final_nil].
  - apply turn_safe_bind; [apply external_chat_completion|]. intros response.
    apply turn_safe_bind; [apply external_lift|]. intros text.
    destruct (contains ReactAgent.marker text); [|apply IH].
    apply (turn_safe_commit user_input).
Qed.

(** A backend that raises on the first call of a turn ends the turn. *)
Lemma aprocess_backend_failure (fuel : nat) (self : Agent.t)
    (user_input model : string) (s : state) (messages : list message) (e : exn) :
  build_messages self user_input s = (Ok messages, s) →
  llm self (trace s) model messages (tools self) = Raise e →
  aprocess (S fuel) self user_input model s =
    (Raise e, with_trace s (trace s ++ [LLMCall model messages (Raise e)])).
Proof.
  intros Hm Hllm. unfold aprocess. unfold bindM at 1. rewrite Hm.
  unfold bindM at 1. simpl. unfold bindM at 1. unfold chat_completion at 1.
  rewrite Hllm. done.
Qed.

End turn_facts.

(** C4: in a turn of [Agent.aprocess], [Agent.process] or
    [ReactAgent.process] that ends with an exception, the memory (and the
    log) are as they were before the turn, and the call that raised is the
    last call of the turn: the loop makes no further backend or tool call,
    and the turn ends with that exception. *)
Theorem C4_failed_turn_keeps_history `{Runtime} (fuel : nat) (self : Agent.t)
    (user_input model : string) :
  turn_safe (Agent.aprocess fuel self user_input model) ∧
  turn_safe (Agent.process self user_input model) ∧
  turn_safe (ReactAgent.process fuel self user_input model).
Proof.
  split; [|split].
  - unfold Agent.aprocess.
    apply turn_safe_bind; [apply external_build_messages|]. intros messages.
    apply turn_safe_bind; [apply external_aprocess_loop|]. intros response.
    apply (turn_safe_commit user_input).
  - unfold Agent.process.
    apply turn_safe_bind; [apply external_build_messages|]. intros messages.
    apply turn_safe_bind; [apply external_chat_completion|]. intros response.
    apply (turn_safe_commit user_input).
  - unfold ReactAgent.process.
    apply turn_safe_bind; [apply external_build_messages|]. intros messages.
    apply turn_safe_react_loop.
Qed.

Lemma C4_failed_turn_keeps_history_witness :
  let run := @Agent.aprocess sample_runtime 3 (sample_agent failing_llm) "hi" "gpt-4o" Agent.init_state in
  run.1 = Raise (Exception "connection refused") ∧
  Agent.memory_manager run.2 = Agent.memory_manager Agent.init_state ∧
  Agent.log_manager run.2 = Agent.log_manager Agent.init_state.
Proof.
  intros run.
  destruct (C4_failed_turn_keeps_history (H := sample_runtime) 3
              (sample_agent failing_llm) "hi" "gpt-4o") as [Ha _].
  destruct (Ha Agent.init_state run.1 run.2) as [Hmem _].
  - apply surjective_pairing.
  - split; [vm_compute; reflexivity|].
    apply (Hmem (Exception "connection refused")). vm_compute. reflexivity.
Defined.

(** ** The tool-call cycle *)

Section cycle_facts.
Import Agent.
Context `{Runtime}.

Lemma tool_events_length (matched : list (Tool * kwargs)) :
  ∀ tr rs, runs_ok tr matched rs → length (tool_events matched rs) = length matched.
Proof.
  induction matched as [|[t kw] matched IH]; intros tr [|r rs]; simpl; try done.
  intros [_ Hruns]. f_equal. by eapply IH.
Qed.

Lemma tool_events_tool_runs (matched : list (Tool * kwargs)) (rs : list pyobj) :
  List.filter is_tool_run (tool_events matched rs) = tool_events matched rs ∧
  List.filter is_llm_call (tool_events matched rs) = [].
Proof.
  revert rs. induction matched as [|[t kw] matched IH]; intros [|r rs]; simpl; try done.
  destruct (IH rs) as [-> ->]. done.
Qed.

Lemma bindM_ok {A B} (m : M A) (f : A → M B) (s s1 : state) (a : A) :
  m s = (Ok a, s1) → bindM m f s = f a s1.
Proof. unfold bindM. by intros ->. Qed.

Lemma chat_completion_run (self : Agent.t) (model : string)
    (messages : list message) (tools : option (list Tool)) (s : state)
    (r : outcome response) :
  llm self (trace s) model messages tools = r →
  chat_completion self model messages tools s =
    (r, with_trace s (trace s ++ [LLMCall model messages r])).
Proof. intros <-. unfold chat_completion, bindM, record, lift. simpl. done. Qed.

Lemma handle_tool_calls_runs (self : Agent.t) (ts : list Tool)
    (calls : list tool_call) (s : state) (results : list pyobj) :
  tools self = Some ts →
  runs_ok (trace s) (matched_calls ts calls) results →
  handle_tool_calls self calls s =
    (Ok results, with_trace s (trace s ++ tool_events (matched_calls ts calls) results)).
Proof.
  intros Hts Hruns. unfold handle_tool_calls. rewrite Hts.
  apply tool_calls_loop_spec. by exists results.
Qed.

Lemma aprocess_loop_cycle (self : Agent.t) (ts : list Tool) (s : state)
    (model : string) (fuel : nat) (msgs0 : list message)
    (r1 r2 : structured) (tc : tool_call) (results : list pyobj) :
  tools self = Some ts →
  llm self (trace s) model msgs0 (Some ts) = Ok (RStructured r1) →
  tool_calls r1 = [tc] →
  runs_ok (trace s ++ [LLMCall model msgs0 (Ok (RStructured r1))])%list
    (matched_calls ts [tc]) results →
  llm self
    (trace s ++ [LLMCall model msgs0 (Ok (RStructured r1))] ++
     tool_events (matched_calls ts [tc]) results)%list
    model (msgs0 ++ [assistant_tool_message r1; tool_message results])%list
    (Some ts) = Ok (RStructured r2) →
  tool_calls r2 = [] →
  aprocess_loop (S (S fuel)) self model msgs0 s =
    (Ok (RStructured r2),
     with_trace s
       (trace s ++ [LLMCall model msgs0 (Ok (RStructured r1))] ++
        tool_events (matched_calls ts [tc]) results ++
        [LLMCall model (msgs0 ++ [assistant_tool_message r1; tool_message results])%list
           (Ok (RStructured r2))])%list).
Proof.
  intros Hts Hllm1 Htc Hruns Hllm2 Htc2.
  cbn [aprocess_loop].
  rewrite Hts in *.
  erewrite bindM_ok; [|by apply chat_completion_run].
  erewrite bindM_ok; [|reflexivity].
  rewrite Htc.
  erewrite bindM_ok; [|by apply (handle_tool_calls_runs self ts)].
  erewrite bindM_ok;
    [|apply chat_completion_run; cbn [trace with_trace];
      rewrite <- app_assoc; exact Hllm2].
  erewrite bindM_ok; [|reflexivity].
  rewrite Htc2. unfold ret, with_trace. cbn [trace memory_manager log_manager].
  by rewrite <- !app_assoc.
Qed.

End cycle_facts.

(** C2, on the scenario of the claim: the backend asks once for the
    declared tool [calendlytool] and then answers [Booked.].  As claimed,
    the turn makes two backend calls and one tool run between them, and the
    second backend call receives the first messages followed by one
    assistant message and one tool message.  But the turn returns the
    second response itself and not its content [Booked.], and it is the
    response that the memory holds as the content of the assistant
    message. *)
Theorem C2_turn_returns_the_response_object :
  let self := sample_agent (one_tool_call_llm "calendlytool") in
  let run := @Agent.aprocess sample_runtime 2 self "book a slot" "gpt-4o" Agent.init_state in
  let tc := {| function_name := "calendlytool";
               function_arguments := {[ "invitee_name" := PyStr "Ada" ]} |} in
  let r1 := {| content := None; tool_calls := [tc] |} in
  let r2 := {| content := Some "Booked."; tool_calls := [] |} in
  let system : message := {[ "role" := VStr "system"; "content" := VStr "You are helpful" ]} in
  let user : message := {[ "role" := VStr "user"; "content" := VStr "book a slot" ]} in
  Agent.trace run.2 =
    [ LLMCall "gpt-4o" [system; user] (Ok (RStructured r1));
      ToolRun "CalendlyTool" {[ "invitee_name" := PyStr "Ada" ]} (Ok (PyStr "Ada"));
      LLMCall "gpt-4o"
        [ system; user;
          {[ "role" := VStr "assistant"; "content" := VNone;
             "tool_calls" := VToolCalls [tc] ]};
          {[ "role" := VStr "tool"; "content" := VStr "[...]" ]} ]
        (Ok (RStructured r2)) ] ∧
  run.1 = Ok (RStructured r2) ∧
  run.1 ≠ Ok (RText "Booked.") ∧
  MemoryStore.history (MemoryManager.store (Agent.memory_manager run.2)) =
    [ user; {[ "role" := VStr "assistant"; "content" := VResponse r2 ]} ].
Proof.
  cbv zeta. split; [|split; [|split]].
  - vm_compute. reflexivity.
  - vm_compute. reflexivity.
  - vm_compute. discriminate.
  - vm_compute. reflexivity.
Qed.

(** When the requested tool is not declared, no tool is run: the backend
    asks once for the tool [search] and then answers, the agent declares
    only [CalendlyTool], and the turn makes two backend calls and no tool
    call. *)
Lemma unmatched_request_runs_no_tool :
  let self := sample_agent (one_tool_call_llm "search") in
  let run := @Agent.aprocess sample_runtime 5 self "book a slot" "gpt-4o" Agent.init_state in
  (∃ r1 r2 tc msgs1,
     Agent.trace run.2 =
       [ LLMCall "gpt-4o" [mk_message "system" "You are helpful"; mk_message "user" "book a slot"]
           (Ok (RStructured r1));
         LLMCall "gpt-4o" msgs1 (Ok (RStructured r2)) ] ∧
     tool_calls r1 = [tc] ∧ tool_calls r2 = [] ∧ run.1 = Ok (RStructured r2)) ∧
  length (List.filter is_tool_run (Agent.trace run.2)) = 0%nat.
Proof.
  intros self run. split.
  - do 4 eexists. vm_compute. repeat split.
  - vm_compute. reflexivity.
Qed.

(** X16: the tool-call cycle of [aprocess], for any agent whose tools are a
    list: when the first response carries one tool-call request and the
    second none, the turn makes two backend calls; between them it runs the
    requested tool once if the request resolves to a declared tool, and no
    tool otherwise; the second backend call receives the first messages
    followed by one assistant message, with the content and the requests of
    the first response, and one tool message, with the results as a string;
    the turn ends with the second response, after the user message and an
    assistant message that holds this response were added to the memory. *)
Theorem X16_tool_call_cycle `{Runtime} (self : Agent.t) (ts : list Tool)
    (s : Agent.state) (user_input model : string) (fuel : nat)
    (msgs0 : list message) (r1 r2 : structured) (tc : tool_call)
    (results : list pyobj) :
  Agent.tools self = Some ts →
  PromptManager.get_messages (Agent.prompt_manager self) user_input
    (Some (MemoryManager.get_history (Agent.memory_manager s)
             MemoryManager.default_limit)) None = Ok msgs0 →
  Agent.llm self (Agent.trace s) model msgs0 (Some ts) = Ok (RStructured r1) →
  tool_calls r1 = [tc] →
  let ev1 := LLMCall model msgs0 (Ok (RStructured r1)) in
  let runs := tool_events (matched_calls ts [tc]) results in
  let msgs1 :=
    (msgs0 ++
     [ {[ "role" := VStr "assistant";
          "content" := value_of_content (content r1);
          "tool_calls" := VToolCalls [tc] ]};
       {[ "role" := VStr "tool"; "content" := VStr (py_str results) ]} ])%list in
  runs_ok (Agent.trace s ++ [ev1])%list (matched_calls ts [tc]) results →
  Agent.llm self (Agent.trace s ++ [ev1] ++ runs)%list model msgs1 (Some ts) =
    Ok (RStructured r2) →
  tool_calls r2 = [] →
  let ev2 := LLMCall model msgs1 (Ok (RStructured r2)) in
  ∃ s',
    Agent.aprocess (S (S fuel)) self user_input model s = (Ok (RStructured r2), s') ∧
    Agent.trace s' = (Agent.trace s ++ [ev1] ++ runs ++ [ev2])%list ∧
    length (List.filter is_llm_call ([ev1] ++ runs ++ [ev2])%list) = 2%nat ∧
    length (List.filter is_tool_run ([ev1] ++ runs ++ [ev2])%list) =
      match resolve ts (function_name tc) with Some _ => 1%nat | None => 0%nat end ∧
    Agent.memory_manager s' =
      MemoryManager.add
        (MemoryManager.add (Agent.memory_manager s)
           {[ "role" := VStr "user"; "content" := VStr user_input ]})
        {[ "role" := VStr "assistant"; "content" := VResponse r2 ]}.
Proof.
  intros Hts Hmsgs Hllm1 Htc ev1 runs msgs1 Hruns Hllm2 Htc2 ev2.
  assert (Hm1 : msgs1 =
    (msgs0 ++ [Agent.assistant_tool_message r1; Agent.tool_message results])%list).
  { unfold msgs1, Agent.assistant_tool_message. by rewrite Htc. }
  clearbody msgs1. subst msgs1.
  eexists. split; [|split; [|split; [|split]]].
  - unfold Agent.aprocess. unfold Agent.bindM at 1. unfold Agent.build_messages at 1.
    rewrite Hmsgs. unfold Agent.bindM at 1.
    rewrite (aprocess_loop_cycle self ts s model fuel msgs0 r1 r2 tc results); try done.
  - simpl. done.
  - destruct (tool_events_tool_runs (matched_calls ts [tc]) results) as [_ Hl].
    unfold ev1, runs, ev2. rewrite !List.filter_app, Hl. reflexivity.
  - destruct (tool_events_tool_runs (matched_calls ts [tc]) results) as [Ht _].
    unfold ev1, runs, ev2. rewrite !List.filter_app, Ht. cbn [List.filter is_tool_run app].
    rewrite app_nil_r, (tool_events_length _ _ _ Hruns).
    unfold matched_calls. simpl. by destruct (resolve ts (function_name tc)).
  - simpl. done.
Qed.

Lemma X16_tool_call_cycle_witness :
  ∃ s',
    @Agent.aprocess sample_runtime 2 (sample_agent (one_tool_call_llm "calendlytool"))
      "book a slot" "gpt-4o" Agent.init_state =
      (Ok (RStructured {| content := Some "Booked."; tool_calls := [] |}), s') ∧
    length (List.filter is_llm_call (Agent.trace s')) = 2%nat ∧
    length (List.filter is_tool_run (Agent.trace s')) = 1%nat ∧
    MemoryStore.history (MemoryManager.store (Agent.memory_manager s')) =
      [ {[ "role" := VStr "user"; "content" := VStr "book a slot" ]};
        {[ "role" := VStr "assistant";
           "content" := VResponse {| content := Some "Booked."; tool_calls := [] |} ]} ].
Proof.
  destruct (X16_tool_call_cycle (H := sample_runtime)
              (sample_agent (one_tool_call_llm "calendlytool")) [calendly_tool]
              Agent.init_state "book a slot" "gpt-4o" 0
              [mk_message "system" "You are helpful"; mk_message "user" "book a slot"]
              {| content := None;
                 tool_calls := [ {| function_name := "calendlytool";
                                    function_arguments :=
                                      {[ "invitee_name" := PyStr "Ada" ]} |} ] |}
              {| content := Some "Booked."; tool_calls := [] |}
              {| function_name := "calendlytool";
                 function_arguments := {[ "invitee_name" := PyStr "Ada" ]} |}
              [PyStr "Ada"])
    as (s' & Hrun & Htr & Hllm & Htool & Hmem).
  - reflexivity.
  - vm_compute. reflexivity.
  - vm_compute. reflexivity.
  - reflexivity.
  - vm_compute. split; reflexivity.
  - vm_compute. reflexivity.
  - reflexivity.
  - exists s'. split; [exact Hrun|]. rewrite Htr. simpl Agent.trace.
    split; [exact Hllm|]. split; [exact Htool|].
    rewrite Hmem. vm_compute. reflexivity.
Defined.

(** ** The ReAct loop *)

Section react_facts.
Import Agent.
Context `{Runtime}.

Lemma react_loop_spec (self : Agent.t) (user_input model : string) (fuel : nat) :
  ∀ (msgs : list message) (s : state) (v : string) (s' : state),
    ReactAgent.process_loop fuel self user_input model msgs s = (Ok v, s') ↔
    ∃ thoughts final,
      (length thoughts < fuel)%nat ∧
      Forall (λ r, contains ReactAgent.marker r = false) thoughts ∧
      contains ReactAgent.marker final = true ∧
      react_script (llm self) (trace s) model msgs thoughts final ∧
      v = strip (replace ReactAgent.marker EmptyString final) ∧
      s' = committed s user_input (VStr v) model
             (react_events model msgs (thoughts ++ [final])).
Proof.
  induction fuel as [|fuel IH]; intros msgs s v s'.
  - simpl. split; [done|]. intros (thoughts & final & Hlt & _). lia.
  - cbn [ReactAgent.process_loop]. unfold bindM at 1.
    rewrite (chat_completion_run self model msgs None s _ eq_refl).
    destruct (llm self (trace s) model msgs None) as [[text|o]|e|w] eqn:Hllm.
    + unfold bindM at 1. cbn [lift ReactAgent.as_text].
      destruct (contains ReactAgent.marker text) eqn:Hc.
      * split.
        -- intros [= <- <-]. exists [], text. repeat split; try done.
           ++ simpl. lia.
        -- intros (thoughts & final & _ & Hall & Hfin & Hscript & -> & ->).
           destruct thoughts as [|r rest]; simpl in Hscript.
           ++ assert (final = text) as -> by congruence. reflexivity.
           ++ destruct Hscript as [Hr _].
              assert (r = text) as -> by congruence.
              apply Forall_cons in Hall as [Hr' _]. congruence.
      * rewrite IH. cbn [trace with_trace]. split.
        -- intros (thoughts & final & Hlt & Hall & Hfin & Hscript & -> & ->).
           exists (text :: thoughts), final. repeat split; try done.
           ++ simpl. lia.
           ++ by constructor.
           ++ unfold committed. cbn. by rewrite <- !app_assoc.
        -- intros (thoughts & final & Hlt & Hall & Hfin & Hscript & -> & ->).
           destruct thoughts as [|r rest]; simpl in Hscript.
           ++ assert (final = text) as -> by congruence. congruence.
           ++ destruct Hscript as [Hr Hscript].
              assert (r = text) as -> by congruence.
              apply Forall_cons in Hall as [_ Hall].
              exists rest, final. repeat split; try done.
              ** simpl in Hlt. lia.
              ** unfold committed. cbn. by rewrite <- !app_assoc.
    + split; [done|].
      intros (thoughts & final & _ & _ & _ & Hscript & _).
      destruct thoughts; simpl in Hscript; [|destruct Hscript]; congruence.
    + split; [done|].
      intros (thoughts & final & _ & _ & _ & Hscript & _).
      destruct thoughts; simpl in Hscript; [|destruct Hscript]; congruence.
    + split; [done|].
      intros (thoughts & final & _ & _ & _ & Hscript & _).
      destruct thoughts; simpl in Hscript; [|destruct Hscript]; congruence.
Qed.

(** The messages of the [i]-th backend call of a ReAct turn are the first
    messages followed by the earlier answers, as assistant messages. *)
Lemma react_events_lookup (model : string) (answers : list string) :
  ∀ (msgs : list message) (i : nat) (r : string),
    answers !! i = Some r →
    react_events model msgs answers !! i =
      Some (LLMCall model
              (msgs ++ ((λ t, ({[ "role" := VStr "assistant"; "content" := VStr t ]} : message))
                          <$> take i answers))%list
              (Ok (RText r))).
Proof.
  induction answers as [|a answers IH]; intros msgs i r Hi; [done|].
  destruct i as [|i]; simpl in *.
  - simplify_eq. by rewrite app_nil_r.
  - rewrite (IH _ _ _ Hi). by rewrite <- app_assoc.
Qed.

End react_facts.

(** C9: a turn of [ReactAgent.process] returns exactly when the backend,
    after some answers without the marker, gives an answer that contains
    it; each earlier answer was appended as it is, as the content of a
    message of role [assistant], before the next backend call; the value
    returned is the last answer without the marker and stripped of
    surrounding white space, and the turn is then committed to the memory
    and the log. *)
Theorem C9_react_process `{Runtime} (self : Agent.t) (s : Agent.state)
    (user_input model : string) (fuel : nat) (msgs0 : list message)
    (v : string) (s' : Agent.state) :
  PromptManager.get_messages (Agent.prompt_manager self) user_input
    (Some (MemoryManager.get_history (Agent.memory_manager s)
             MemoryManager.default_limit)) None = Ok msgs0 →
  ReactAgent.process fuel self user_input model s = (Ok v, s') ↔
  ∃ thoughts final,
    (length thoughts < fuel)%nat ∧
    Forall (λ r, contains ReactAgent.marker r = false) thoughts ∧
    contains ReactAgent.marker final = true ∧
    react_script (Agent.llm self) (Agent.trace s) model msgs0 thoughts final ∧
    v = strip (replace ReactAgent.marker EmptyString final) ∧
    s' = committed s user_input (VStr v) model
           (react_events model msgs0 (thoughts ++ [final])).
Proof.
  intros Hmsgs. unfold ReactAgent.process. unfold Agent.bindM at 1.
  unfold Agent.build_messages at 1. rewrite Hmsgs.
  apply react_loop_spec.
Qed.

Lemma C9_react_process_witness :
  ∃ s',
    @ReactAgent.process sample_runtime 3 (sample_agent react_llm) "2+2?" "gpt-4o"
      Agent.init_state = (Ok "4", s') ∧
    Agent.trace s' =
      [ LLMCall "gpt-4o"
          [ {[ "role" := VStr "system"; "content" := VStr "You are helpful" ]};
            {[ "role" := VStr "user"; "content" := VStr "2+2?" ]} ]
          (Ok (RText "Thought: I need the sum"));
        LLMCall "gpt-4o"
          [ {[ "role" := VStr "system"; "content" := VStr "You are helpful" ]};
            {[ "role" := VStr "user"; "content" := VStr "2+2?" ]};
            {[ "role" := VStr "assistant"; "content" := VStr "Thought: I need the sum" ]} ]
          (Ok (RText "Action: add"));
        LLMCall "gpt-4o"
          [ {[ "role" := VStr "system"; "content" := VStr "You are helpful" ]};
            {[ "role" := VStr "user"; "content" := VStr "2+2?" ]};
            {[ "role" := VStr "assistant"; "content" := VStr "Thought: I need the sum" ]};
            {[ "role" := VStr "assistant"; "content" := VStr "Action: add" ]} ]
          (Ok (RText "[FINAL ANSWER] 4 ")) ] ∧
    MemoryStore.history (MemoryManager.store (Agent.memory_manager s')) =
      [ {[ "role" := VStr "user"; "content" := VStr "2+2?" ]};
        {[ "role" := VStr "assistant"; "content" := VStr "4" ]} ].
Proof.
  eexists. split; [|split].
  - apply (C9_react_process (H := sample_runtime) (sample_agent react_llm)
             Agent.init_state "2+2?" "gpt-4o" 3
             [mk_message "system" "You are helpful"; mk_message "user" "2+2?"]).
    + vm_compute. reflexivity.
    + exists ["Thought: I need the sum"; "Action: add"], "[FINAL ANSWER] 4 ".
      split; [simpl; lia|]. split; [repeat constructor|].
      split; [vm_compute; reflexivity|]. split; [vm_compute; repeat split|].
      split; [vm_compute; reflexivity|]. reflexivity.
  - vm_compute. reflexivity.
  - vm_compute. reflexivity.
Defined.

(** * Further properties of the memory, the cache and the configuration *)

Section memory_more.
Import MemoryStore MemoryManager.

Lemma add_history_well_formed (st : MemoryStore.t) (m : message) :
  Forall (λ x, well_formed x = true) (history st) →
  Forall (λ x, well_formed x = true) (history (add_history st m)).
Proof.
  intros Hwf. rewrite add_history_history. apply Forall_app. split; [done|].
  destruct (well_formed m) eqn:Hm; by repeat constructor.
Qed.

Lemma filter_well_formed_all (l : list message) :
  Forall (λ x, well_formed x = true) (List.filter well_formed l).
Proof.
  induction l as [|x l IH]; simpl; [constructor|].
  destruct (well_formed x) eqn:Hx; [by constructor|done].
Qed.

Lemma add_well_formed (self : MemoryManager.t) (m : message) :
  Forall (λ x, well_formed x = true) (history (store self)) →
  Forall (λ x, well_formed x = true) (history (store (add self m))).
Proof.
  intros Hwf. unfold add. cbv zeta.
  destruct (_ >? _); simpl.
  - rewrite foldl_add_history. simpl. apply filter_well_formed_all.
  - by apply add_history_well_formed.
Qed.

Lemma foldl_add_history_cache (l : list message) (st : MemoryStore.t) :
  cache (foldl add_history st l) = cache st.
Proof.
  revert st. induction l as [|m l IH]; intros st; simpl; [done|].
  by rewrite IH, add_history_cache.
Qed.

End memory_more.

(** X1: with a maximum [N] from 0 to 19, a fresh manager holds after any
    sequence of [add] calls the last [N] well-formed messages, in the order
    they were added, and [get_history()] returns exactly these. *)
Theorem X1_small_maximum_keeps_last_messages (N : Z) (ms : list message) :
  0 ≤ N < 20 →
  MemoryStore.history (MemoryManager.store
    (MemoryManager.add_all (MemoryManager.init N) ms)) =
    last_n (Z.to_nat N) (List.filter MemoryStore.well_formed ms) ∧
  MemoryManager.get_history (MemoryManager.add_all (MemoryManager.init N) ms)
    MemoryManager.default_limit =
    last_n (Z.to_nat N) (List.filter MemoryStore.well_formed ms) ∧
  Z.of_nat (length (MemoryStore.history (MemoryManager.store
    (MemoryManager.add_all (MemoryManager.init N) ms)))) ≤ N.
Proof.
  intros HN. rewrite get_history_small_max, add_all_small_max by done.
  repeat split.
  pose proof (last_n_length (Z.to_nat N) (List.filter MemoryStore.well_formed ms)).
  lia.
Qed.

Lemma X1_small_maximum_keeps_last_messages_witness :
  MemoryStore.history (MemoryManager.store
    (MemoryManager.add_all (MemoryManager.init 3) (user_messages 5))) =
    last_n (Z.to_nat 3) (List.filter MemoryStore.well_formed (user_messages 5)) ∧
  MemoryManager.get_history (MemoryManager.add_all (MemoryManager.init 3) (user_messages 5))
    MemoryManager.default_limit =
    last_n (Z.to_nat 3) (List.filter MemoryStore.well_formed (user_messages 5)) ∧
  Z.of_nat (length (MemoryStore.history (MemoryManager.store
    (MemoryManager.add_all (MemoryManager.init 3) (user_messages 5))))) ≤ 3.
Proof. apply (X1_small_maximum_keeps_last_messages 3 (user_messages 5)). lia. Defined.

(** X2: with a maximum of 20 or more, [add] never evicts: after any
    sequence of [add] calls the stored history is the earlier history
    followed by all the well-formed messages added. *)
Theorem X2_large_maximum_never_evicts (self : MemoryManager.t) (ms : list message) :
  20 ≤ MemoryManager.max_history self →
  MemoryStore.history (MemoryManager.store (MemoryManager.add_all self ms)) =
    (MemoryStore.history (MemoryManager.store self) ++
     List.filter MemoryStore.well_formed ms)%list.
Proof. apply add_all_no_eviction. Qed.

Lemma X2_large_maximum_never_evicts_witness :
  MemoryStore.history (MemoryManager.store
    (MemoryManager.add_all (MemoryManager.init 25) (user_messages 30))) =
    (MemoryStore.history (MemoryManager.store (MemoryManager.init 25)) ++
     List.filter MemoryStore.well_formed (user_messages 30))%list.
Proof. apply (X2_large_maximum_never_evicts (MemoryManager.init 25)). simpl. lia. Defined.

(** X3: whatever the maximum and whatever is passed to [add], a manager
    that started empty never stores a message without a role or without a
    content. *)
Theorem X3_history_messages_are_well_formed (N : Z) (ms : list message) :
  Forall (λ m, is_Some (m !! "role") ∧ is_Some (m !! "content"))
    (MemoryStore.history (MemoryManager.store
       (MemoryManager.add_all (MemoryManager.init N) ms))).
Proof.
  cut (Forall (λ m, MemoryStore.well_formed m = true)
         (MemoryStore.history (MemoryManager.store
            (MemoryManager.add_all (MemoryManager.init N) ms)))).
  { intros Hall. eapply Forall_impl; [exact Hall|].
    intros m Hm. unfold MemoryStore.well_formed in Hm.
    apply andb_true_iff in Hm as [H1 H2].
    by apply bool_decide_eq_true in H1, H2. }
  unfold MemoryManager.add_all.
  assert (Hinit : Forall (λ m, MemoryStore.well_formed m = true)
            (MemoryStore.history (MemoryManager.store (MemoryManager.init N))))
    by constructor.
  revert Hinit. generalize (MemoryManager.init N).
  induction ms as [|m ms IH]; intros self Hwf; simpl; [done|].
  apply IH. by apply add_well_formed.
Qed.

(** X4: for a positive [limit], [get_history(limit)] returns the last
    [limit] stored messages in their order, or all of them when fewer are
    stored. *)
Theorem X4_get_history_positive_limit (mm : MemoryManager.t) (limit : Z) :
  0 < limit →
  MemoryManager.get_history mm limit =
    last_n (Z.to_nat limit) (MemoryStore.history (MemoryManager.store mm)) ∧
  length (MemoryManager.get_history mm limit) =
    Nat.min (Z.to_nat limit) (length (MemoryStore.history (MemoryManager.store mm))).
Proof.
  intros Hl. unfold MemoryManager.get_history, MemoryStore.get_history.
  rewrite slice_from_last by done. split; [done|].
  rewrite length_drop. lia.
Qed.

Lemma X4_get_history_positive_limit_witness :
  MemoryManager.get_history
    (MemoryManager.add_all (MemoryManager.init 20) (user_messages 5)) 2 =
    last_n (Z.to_nat 2) (MemoryStore.history (MemoryManager.store
      (MemoryManager.add_all (MemoryManager.init 20) (user_messages 5)))) ∧
  length (MemoryManager.get_history
    (MemoryManager.add_all (MemoryManager.init 20) (user_messages 5)) 2) =
    Nat.min (Z.to_nat 2) (length (MemoryStore.history (MemoryManager.store
      (MemoryManager.add_all (MemoryManager.init 20) (user_messages 5))))).
Proof. apply X4_get_history_positive_limit. lia. Defined.

(** X5: a negative [limit] does not fail: [get_history(limit)] then
    returns the stored messages without the first [-limit] of them, and not
    the last ones; the result is empty exactly when at most [-limit]
    messages are stored. *)
Theorem X5_get_history_negative_limit (mm : MemoryManager.t) (limit : Z) :
  limit < 0 →
  MemoryManager.get_history mm limit =
    drop (Z.to_nat (- limit)) (MemoryStore.history (MemoryManager.store mm)) ∧
  (MemoryManager.get_history mm limit = [] ↔
   Z.of_nat (length (MemoryStore.history (MemoryManager.store mm))) ≤ - limit).
Proof.
  intros Hl.
  assert (Heq : MemoryManager.get_history mm limit =
    drop (Z.to_nat (- limit)) (MemoryStore.history (MemoryManager.store mm))).
  { unfold MemoryManager.get_history, MemoryStore.get_history, slice_from.
    destruct (Z.ltb_spec (- limit) 0) as [?|_]; [lia|].
    destruct (Z.le_ge_cases (- limit)
                (Z.of_nat (length (MemoryStore.history (MemoryManager.store mm)))))
      as [Hle|Hge].
    - by rewrite Z.min_l.
    - rewrite Z.min_r by done. rewrite Nat2Z.id.
      rewrite !drop_ge; [done|lia..]. }
  split; [exact Heq|]. rewrite Heq. split.
  - intros Hnil. apply (f_equal length) in Hnil.
    rewrite length_drop in Hnil. simpl in Hnil. lia.
  - intros Hle. apply drop_ge. lia.
Qed.

Lemma X5_get_history_negative_limit_witness :
  MemoryManager.get_history
    (MemoryManager.add_all (MemoryManager.init 20) (user_messages 5)) (-2) =
    [ mk_message "user" "2"; mk_message "user" "3"; mk_message "user" "4" ] ∧
  MemoryManager.get_history
    (MemoryManager.add_all (MemoryManager.init 20) (user_messages 2)) (-2) = [].
Proof.
  split.
  - rewrite (proj1 (X5_get_history_negative_limit
                      (MemoryManager.add_all (MemoryManager.init 20) (user_messages 5))
                      (-2) eq_refl)).
    vm_compute. reflexivity.
  - apply (proj2 (X5_get_history_negative_limit
                    (MemoryManager.add_all (MemoryManager.init 20) (user_messages 2))
                    (-2) eq_refl)).
    vm_compute. discriminate.
Defined.

(** X6: when [add] evicts, it also empties the cache of the same store
    ([clear(history=True)] leaves [cache=True]); when it does not evict,
    the cache is kept. *)
Theorem X6_eviction_empties_the_cache (self : MemoryManager.t) (m : message) :
  0 ≤ MemoryManager.max_history self < 20 →
  Z.of_nat (length (MemoryStore.history (MemoryManager.store self))) ≤
    MemoryManager.max_history self →
  MemoryStore.well_formed m = true →
  MemoryStore.cache (MemoryManager.store (MemoryManager.add self m)) =
    if bool_decide (Z.of_nat (length (MemoryStore.history (MemoryManager.store self))) =
                    MemoryManager.max_history self)
    then ∅ else MemoryStore.cache (MemoryManager.store self).
Proof.
  intros HN Hlen Hm. unfold MemoryManager.add. cbv zeta.
  unfold MemoryStore.get_history, MemoryStore.default_limit.
  rewrite add_history_history, Hm.
  rewrite (slice_from_short 20) by (rewrite ?length_app; simpl; lia).
  rewrite length_app. simpl.
  destruct (Z.gtb_spec
    (Z.of_nat (length (MemoryStore.history (MemoryManager.store self)) + 1))
    (MemoryManager.max_history self)) as [Hgt|Hle]; simpl.
  - rewrite foldl_add_history_cache. simpl.
    rewrite bool_decide_eq_true_2 by lia. done.
  - rewrite bool_decide_eq_false_2 by lia. by rewrite add_history_cache.
Qed.

Lemma X6_eviction_empties_the_cache_witness :
  let self := {| MemoryManager.store :=
                   MemoryStore.set_cache
                     (MemoryManager.store
                        (MemoryManager.add_all (MemoryManager.init 2) (user_messages 2)))
                     "k" (PyInt 1);
                 MemoryManager.max_history := 2 |} in
  MemoryStore.cache (MemoryManager.store (MemoryManager.add self (mk_message "user" "x"))) =
    if bool_decide (Z.of_nat (length (MemoryStore.history (MemoryManager.store self))) =
                    MemoryManager.max_history self)
    then ∅ else MemoryStore.cache (MemoryManager.store self).
Proof.
  intros self. apply X6_eviction_empties_the_cache.
  - simpl. lia.
  - vm_compute. discriminate.
  - vm_compute. reflexivity.
Defined.

(** X7: [set] then [get] of the same key returns the value set; the other
    keys and the history of the store are as before. *)
Theorem X7_cache_set_get (self : CacheManager.t) (key key' : string) (value : pyobj) :
  CacheManager.get (CacheManager.set self key value) key = MemoryStore.Entry value ∧
  (key ≠ key' →
     CacheManager.get (CacheManager.set self key value) key' = CacheManager.get self key') ∧
  MemoryStore.history (CacheManager.store (CacheManager.set self key value)) =
    MemoryStore.history (CacheManager.store self).
Proof.
  unfold CacheManager.get, CacheManager.set, MemoryStore.fetch_cache. simpl.
  rewrite lookup_insert_eq. repeat split.
  intros Hne. by rewrite lookup_insert_ne.
Qed.

(** X8: [get] of a key that was never set returns [None] and does not
    raise, also after [clear]; a key set to [None] cannot be told from an
    absent one. *)
Theorem X8_cache_get_absent (self : CacheManager.t) (key : string) :
  (MemoryStore.cache (CacheManager.store self) !! key = None →
     CacheManager.get self key = MemoryStore.Entry PyNone) ∧
  CacheManager.get (CacheManager.clear self) key = MemoryStore.Entry PyNone ∧
  CacheManager.get (CacheManager.set self key PyNone) key =
    CacheManager.get CacheManager.init key.
Proof.
  unfold CacheManager.get, CacheManager.set, CacheManager.clear, MemoryStore.fetch_cache.
  simpl. rewrite lookup_insert_eq, lookup_empty. repeat split.
  by intros ->.
Qed.


(** X10: [set_mode] keeps the mode of a configuration supported: a
    supported mode is stored and read back by [get_mode]; an unsupported
    one raises and leaves the configuration as it was. *)
Theorem X10_config_set_mode (self : AgentConfig.t) (mode : string) :
  AgentConfig.get_mode self ∈ AgentConfig.valid_modes →
  AgentConfig.get_mode (AgentConfig.set_mode self mode).2 ∈ AgentConfig.valid_modes ∧
  (mode ∈ AgentConfig.valid_modes →
     (AgentConfig.set_mode self mode).1 = AgentConfig.Valid () ∧
     AgentConfig.get_mode (AgentConfig.set_mode self mode).2 = mode) ∧
  (mode ∉ AgentConfig.valid_modes →
     AgentConfig.set_mode self mode = (AgentConfig.ModeNotSupported mode, self)).
Proof.
  intros Hself. unfold AgentConfig.set_mode, AgentConfig._validate_mode.
  case_bool_decide as Hm; simpl; repeat split; try done.
Qed.

Lemma X10_config_set_mode_witness :
  AgentConfig.get_mode
    (AgentConfig.set_mode {| AgentConfig.agent_mode := "chat" |} "debug").2
    ∈ AgentConfig.valid_modes ∧
  ("debug" ∈ AgentConfig.valid_modes →
     (AgentConfig.set_mode {| AgentConfig.agent_mode := "chat" |} "debug").1 =
       AgentConfig.Valid () ∧
     AgentConfig.get_mode
       (AgentConfig.set_mode {| AgentConfig.agent_mode := "chat" |} "debug").2 = "debug") ∧
  ("debug" ∉ AgentConfig.valid_modes →
     AgentConfig.set_mode {| AgentConfig.agent_mode := "chat" |} "debug" =
       (AgentConfig.ModeNotSupported "debug", {| AgentConfig.agent_mode := "chat" |})).
Proof.
  apply (X10_config_set_mode {| AgentConfig.agent_mode := "chat" |} "debug").
  unfold AgentConfig.get_mode, AgentConfig.valid_modes. simpl. set_solver.
Defined.

(** * Further properties of the prompts *)

Lemma format_go_brace_free (kw : gmap string string) (t : string) :
  brace_free t = true → format_go kw MText t = Ok t.
Proof.
  induction t as [|c t IH]; [done|]. simpl.
  intros Hbf. apply andb_true_iff in Hbf as [Hc Ht].
  apply andb_true_iff in Hc as [Hl Hr].
  apply negb_true_iff in Hl, Hr. rewrite Hl, Hr, (IH Ht). done.
Qed.

Lemma brace_free_messages (pm : PromptManager.t) (user_input : string)
    (history : option (list message)) (variables : option (gmap string string)) :
  brace_free user_input = true →
  PromptManager.get_messages pm user_input history variables =
    Ok (PromptManager.default_messages pm ++ default [] history ++
        [ mk_message "user" user_input ])%list.
Proof.
  intros Hbf. unfold PromptManager.get_messages, PromptManager._format_prompt, format.
  rewrite (format_go_brace_free _ _ Hbf). simpl.
  destruct history as [[|m h]|]; simpl; by rewrite <- ?app_assoc, ?app_nil_r.
Qed.

(** X11: a user input without braces reaches the backend as it was typed:
    whatever the variables, [get_messages] returns the default messages,
    the history and one user message whose content is the input itself. *)
Theorem X11_brace_free_input_is_verbatim (pm : PromptManager.t) (user_input : string)
    (history : option (list message)) (variables : option (gmap string string)) :
  brace_free user_input = true →
  PromptManager.get_messages pm user_input history variables =
    Ok (PromptManager.default_messages pm ++ default [] history ++
        [ mk_message "user" user_input ])%list.
Proof. apply brace_free_messages. Qed.

Lemma X11_brace_free_input_is_verbatim_witness :
  PromptManager.get_messages sample_manager "What is 2+2?" None
    (Some {[ "name" := "Ada" ]}) =
    Ok (PromptManager.default_messages sample_manager ++ default [] None ++
        [ mk_message "user" "What is 2+2?" ])%list.
Proof. apply X11_brace_free_input_is_verbatim. vm_compute. reflexivity. Defined.



Section examples_facts.
Import PromptFormatter.

Lemma examples_loop_bad (good : list (gmap string string)) :
  ∀ (i : nat) (acc : string) (bad : gmap string string)
    (rest : list (gmap string string)),
    Forall (λ e, is_Some (example_fields e)) good →
    example_fields bad = None →
    examples_loop i (good ++ bad :: rest) acc =
      Raise (KeyError (match bad !! "input" with Some _ => "output" | None => "input" end)).
Proof.
  induction good as [|e good IH]; intros i acc bad rest Hgood Hbad; simpl.
  - unfold example_fields in Hbad. unfold getitem.
    destruct (bad !! "input"); simpl; [|done].
    by destruct (bad !! "output").
  - apply Forall_cons in Hgood as [[io He] Hgood].
    unfold example_fields in He. unfold getitem.
    destruct (e !! "input"); [|done]. destruct (e !! "output"); [|done]. simpl.
    by apply IH.
Qed.

Lemma join_empty_cons (x : string) (l : list string) :
  join EmptyString (x :: l) = x +:+ join EmptyString l.
Proof. destruct l; simpl; [by rewrite string_app_nil_r|done]. Qed.

Lemma examples_loop_good (ios : list (string * string)) :
  ∀ (i : nat) (acc : string) (examples : list (gmap string string)),
    mapM example_fields examples = Some ios →
    examples_loop i examples acc =
      Ok (acc +:+ join EmptyString (imap (λ j io, example_block (i + j) io) ios)).
Proof.
  induction ios as [|io ios IH]; intros i acc examples Hm.
  - apply mapM_Some in Hm. apply Forall2_nil_inv_r in Hm as ->. simpl.
    by rewrite string_app_nil_r.
  - apply mapM_Some in Hm. apply Forall2_cons_inv_r in Hm as (e & rest & He & Hrest & ->).
    apply mapM_Some in Hrest.
    rewrite imap_cons, join_empty_cons.
    cbn [examples_loop]. unfold example_fields in He. unfold getitem.
    destruct (e !! "input") as [inp|]; [|done].
    destruct (e !! "output") as [out|]; [|done].
    injection He as <-. cbn [bind].
    rewrite (IH _ _ _ Hrest).
    rewrite (imap_ext (λ j io0, example_block (S i + j) io0)
               ((λ j io0, example_block (i + j) io0) ∘ S) ios)
      by (intros j io0 _; simpl; f_equal; lia).
    rewrite Nat.add_0_r. unfold example_block at 2. cbn [fst snd].
    by rewrite !string_app_assoc.
Qed.

End examples_facts.

(** X13: an example without an [input] or without an [output] makes
    [format_prompt] raise [KeyError], with any variables and in any style;
    this error is not turned into the [ValueError] of a missing
    variable. *)
Theorem X13_incomplete_example_raises_key_error (self : PromptFormatter.t)
    (good rest : list (gmap string string)) (bad : gmap string string)
    (user_input : string) (variables : option (gmap string string)) :
  PromptFormatter.examples self = (good ++ bad :: rest)%list →
  Forall (λ e, is_Some (e !! "input") ∧ is_Some (e !! "output")) good →
  bad !! "input" = None ∨ bad !! "output" = None →
  PromptFormatter.format_prompt self user_input variables =
    Raise (KeyError (match bad !! "input" with Some _ => "output" | None => "input" end)).
Proof.
  intros Hex Hgood Hbad.
  assert (Hloop : ∀ i acc,
            PromptFormatter.examples_loop i (PromptFormatter.examples self) acc =
              Raise (KeyError (match bad !! "input" with
                               | Some _ => "output" | None => "input" end))).
  { intros i acc. rewrite Hex. apply examples_loop_bad.
    - eapply Forall_impl; [exact Hgood|]. intros e [[a Ha] [b Hb]].
      unfold example_fields. rewrite Ha, Hb. by eexists.
    - unfold example_fields. destruct Hbad as [-> | Hb]; [done|].
      rewrite Hb. by destruct (bad !! "input"). }
  assert (Hblock : PromptFormatter.examples_block self =
            Raise (KeyError (match bad !! "input" with
                             | Some _ => "output" | None => "input" end))).
  { unfold PromptFormatter.examples_block.
    specialize (Hloop 1%nat ("Examples:" +:+ nl)).
    destruct (PromptFormatter.examples self) as [|e es].
    - by destruct good.
    - by rewrite Hloop. }
  unfold PromptFormatter.format_prompt, PromptFormatter.assemble.
  by rewrite Hblock.
Qed.

Lemma X13_incomplete_example_raises_key_error_witness :
  PromptFormatter.format_prompt
    (PromptFormatter.init (Some "R") None None None
       (Some [sample_example; {[ "input" := "3+3" ]}]) XML)
    "hi" (Some {[ "name" := "Ada" ]}) =
    Raise (KeyError (match ({[ "input" := "3+3" ]} : gmap string string) !! "input" with
                     | Some _ => "output" | None => "input" end)).
Proof.
  apply (X13_incomplete_example_raises_key_error _ [sample_example] []).
  - reflexivity.
  - repeat constructor; vm_compute; eauto.
  - right. vm_compute. reflexivity.
Defined.

(** X14: in the markdown and in the xml style, a formatter whose examples
    all have an input and an output renders, without variables, the present
    sections in the order role, task, guide, output format, examples, user
    input, each wrapped for the style and separated by a blank line; the
    examples are numbered from 1 in their order. *)
Theorem X14_markdown_xml_rendering (self : PromptFormatter.t) (user_input : string)
    (ios : list (string * string)) :
  PromptFormatter.format_type self ≠ PLAIN →
  PromptFormatter.examples self ≠ [] →
  mapM example_fields (PromptFormatter.examples self) = Some ios →
  PromptFormatter.format_prompt self user_input None =
    Ok (join nl2
          (wrap_section (PromptFormatter.format_type self) <$>
             present self
               ("Examples:" +:+ nl +:+
                join EmptyString (imap (λ j io, example_block (S j) io) ios))
               user_input)).
Proof.
  intros Hft Hne Hm.
  unfold PromptFormatter.format_prompt. simpl.
  rewrite (assemble_present self user_input
             ("Examples:" +:+ nl +:+
              join EmptyString (imap (λ j io, example_block (S j) io) ios))).
  - simpl. f_equal. unfold PromptFormatter.render.
    destruct (PromptFormatter.format_type self); try done.
  - unfold PromptFormatter.examples_block.
    destruct (PromptFormatter.examples self) as [|e es] eqn:Hex; [done|].
    rewrite (examples_loop_good ios 1 _ _ Hm). simpl.
    by rewrite string_app_assoc.
Qed.

Lemma X14_markdown_xml_rendering_witness :
  PromptFormatter.format_prompt (sample_formatter "You are a tutor" XML) "What is 3+3?" None =
    Ok (join nl2
          (wrap_section (PromptFormatter.format_type (sample_formatter "You are a tutor" XML)) <$>
             present (sample_formatter "You are a tutor" XML)
               ("Examples:" +:+ nl +:+
                join EmptyString (imap (λ j io, example_block (S j) io) [("2+2", "4")]))
               "What is 3+3?")).
Proof.
  apply X14_markdown_xml_rendering.
  - discriminate.
  - discriminate.
  - vm_compute. reflexivity.
Defined.



(** * Further properties of the loops *)

Section loop_more.
Import Agent.
Context `{Runtime}.

Lemma with_trace_twice (s : state) (tr1 tr2 : list event) :
  with_trace (with_trace s tr1) tr2 = with_trace s tr2.
Proof. reflexivity. Qed.

Lemma runs_ok_nil_inv (tr : list event) (rs : list pyobj) :
  runs_ok tr [] rs → rs = [].
Proof. by destruct rs. Qed.

Lemma matched_calls_cons (ts : list Tool) (tc : tool_call) (calls : list tool_call) :
  matched_calls ts (tc :: calls) =
    match resolve ts (function_name tc) with
    | Some t => (t, function_arguments tc) :: matched_calls ts calls
    | None => matched_calls ts calls
    end.
Proof. unfold matched_calls. simpl. by destruct (resolve ts (function_name tc)). Qed.

Lemma matched_calls_length (ts : list Tool) (calls : list tool_call) :
  (length (matched_calls ts calls) ≤ length calls)%nat.
Proof.
  induction calls as [|tc calls IH]; [done|]. rewrite matched_calls_cons.
  destruct (resolve ts (function_name tc)); simpl; lia.
Qed.

Lemma matched_calls_none (ts : list Tool) (calls : list tool_call) :
  Forall (λ tc, resolve ts (function_name tc) = None) calls →
  matched_calls ts calls = [].
Proof.
  induction 1 as [|tc calls Htc _ IH]; [done|].
  by rewrite matched_calls_cons, Htc.
Qed.

Lemma runs_ok_length (matched : list (Tool * kwargs)) :
  ∀ tr rs, runs_ok tr matched rs → length rs = length matched.
Proof.
  induction matched as [|[t kw] matched IH]; intros tr [|r rs]; simpl; try done.
  intros [_ Hruns]. f_equal. by eapply IH.
Qed.

Lemma tool_calls_loop_cons (ts : list Tool) (tc : tool_call)
    (rest : list tool_call) (acc : list pyobj) (s : state) :
  tool_calls_loop (Some ts) (tc :: rest) acc s =
    match resolve ts (function_name tc) with
    | Some t =>
        bindM (run_tool t (function_arguments tc))
          (λ r, tool_calls_loop (Some ts) rest (acc ++ [r])%list) s
    | None => tool_calls_loop (Some ts) rest acc s
    end.
Proof.
  cbn [tool_calls_loop]. unfold bindM at 1. unfold lift at 1, find_tool.
  fold (resolve ts (function_name tc)).
  by destruct (resolve ts (function_name tc)).
Qed.

Lemma run_tool_run (t : Tool) (kw : kwargs) (s : state) (r : outcome pyobj) :
  arun t (trace s) kw = r →
  run_tool t kw s = (r, with_trace s (trace s ++ [ToolRun (class_name t) kw r])).
Proof. intros <-. unfold run_tool, bindM, record, lift. simpl. done. Qed.

Lemma tool_calls_loop_failure (ts : list Tool) (pre : list tool_call) :
  ∀ (post : list tool_call) (tc : tool_call) (t : Tool) (e : exn)
    (acc results : list pyobj) (s : state),
    runs_ok (trace s) (matched_calls ts pre) results →
    resolve ts (function_name tc) = Some t →
    arun t (trace s ++ tool_events (matched_calls ts pre) results)
      (function_arguments tc) = Raise e →
    tool_calls_loop (Some ts) (pre ++ tc :: post) acc s =
      (Raise e,
       with_trace s
         (trace s ++ tool_events (matched_calls ts pre) results ++
          [ToolRun (class_name t) (function_arguments tc) (Raise e)])).
Proof.
  induction pre as [|p pre IH]; intros post tc t e acc results s Hruns Hres Hrun.
  - destruct results; [|done]. simpl in Hrun. rewrite app_nil_r in Hrun.
    cbn [app]. rewrite tool_calls_loop_cons, Hres.
    unfold bindM. by rewrite (run_tool_run _ _ _ _ Hrun).
  - rewrite matched_calls_cons in Hruns, Hrun |- *.
    rewrite <- app_comm_cons, tool_calls_loop_cons.
    destruct (resolve ts (function_name p)) as [t0|] eqn:Hp.
    + destruct results as [|r results]; [done|]. destruct Hruns as [Hr Hruns].
      erewrite bindM_ok; [|by apply run_tool_run].
      rewrite (IH post tc t e _ results); try done.
      * unfold with_trace, tool_events. simpl. by rewrite <- !app_assoc.
      * simpl. unfold tool_events in Hrun. simpl in Hrun.
        by rewrite <- app_assoc.
    + by apply IH.
Qed.

Lemma turn_safe_react_aprocess_loop (fuel : nat) (self : Agent.t)
    (user_input model : string) :
  ∀ messages,
    turn_safe (ReactAgent.aprocess_loop fuel self user_input model messages).
Proof.
  induction fuel as [|fuel IH]; intros messages; simpl.
  - intros s out s' [= <- <-]. split; [done|].
    exists []. split; [by rewrite app_nil_r|apply failure_is_final_nil].
  - apply turn_safe_bind; [apply external_chat_completion|]. intros response.
    apply turn_safe_bind; [apply external_lift|]. intros r.
    apply turn_safe_bind; [apply external_lift|]. intros text.
    destruct (contains ReactAgent.marker text).
    + apply (turn_safe_commit user_input).
    + destruct (tool_calls r); [apply IH|].
      apply turn_safe_bind; [apply external_tool_calls_loop|]. intros rs. apply IH.
Qed.

Lemma react_loop_never_returns (self : Agent.t) (user_input model : string) (fuel : nat) :
  (∀ tr msgs, ∃ text, llm self tr model msgs None = Ok (RText text) ∧
                      contains ReactAgent.marker text = false) →
  ∀ msgs s, ∃ evs,
    ReactAgent.process_loop fuel self user_input model msgs s =
      (Stuck OutOfFuel, with_trace s (trace s ++ evs)) ∧
    length evs = fuel ∧ Forall (λ ev, is_llm_call ev = true) evs.
Proof.
  intros Hllm. induction fuel as [|fuel IH]; intros msgs s.
  - exists []. simpl. unfold lift. by rewrite with_trace_id.
  - destruct (Hllm (trace s) msgs) as (text & Htext & Hc).
    cbn [ReactAgent.process_loop].
    erewrite bindM_ok; [|by apply chat_completion_run].
    erewrite bindM_ok; [|reflexivity]. rewrite Hc.
    destruct (IH (msgs ++ [assistant_message (VStr text)])%list
                (with_trace s (trace s ++ [LLMCall model msgs (Ok (RText text))])))
      as (evs & -> & Hlen & Hall).
    exists (LLMCall model msgs (Ok (RText text)) :: evs). split; [|split].
    + unfold with_trace. simpl. by rewrite <- app_assoc.
    + simpl. by rewrite Hlen.
    + by constructor.
Qed.

Lemma aprocess_loop_never_returns (self : Agent.t) (ts : list Tool)
    (model : string) (fuel : nat) :
  tools self = Some ts →
  (∀ tr msgs, ∃ r, llm self tr model msgs (Some ts) = Ok (RStructured r) ∧
                   tool_calls r ≠ [] ∧
                   Forall (λ tc, resolve ts (function_name tc) = None) (tool_calls r)) →
  ∀ msgs s, ∃ evs,
    aprocess_loop fuel self model msgs s =
      (Stuck OutOfFuel, with_trace s (trace s ++ evs)) ∧
    length evs = fuel ∧ Forall (λ ev, is_llm_call ev = true) evs.
Proof.
  intros Hts Hllm. induction fuel as [|fuel IH]; intros msgs s.
  - exists []. simpl. unfold lift. by rewrite with_trace_id.
  - destruct (Hllm (trace s) msgs) as (r & Hr & Hne & Hnone).
    cbn [aprocess_loop]. rewrite Hts.
    erewrite bindM_ok; [|by apply chat_completion_run].
    erewrite bindM_ok; [|reflexivity].
    destruct (tool_calls r) as [|tc tcs] eqn:Htc; [done|].
    erewrite bindM_ok;
      [|apply (handle_tool_calls_runs self ts _ _ [] Hts);
        by rewrite (matched_calls_none ts _ Hnone)].
    rewrite (matched_calls_none ts _ Hnone). simpl tool_events.
    destruct (IH (msgs ++ [assistant_tool_message r; tool_message []])%list
                (with_trace s (trace s ++ [LLMCall model msgs (Ok (RStructured r))])))
      as (evs & Hrun & Hlen & Hall).
    exists (LLMCall model msgs (Ok (RStructured r)) :: evs). split; [|split].
    + unfold with_trace in *. cbn [trace memory_manager log_manager] in *.
      rewrite app_nil_r, Hrun. by rewrite <- app_assoc.
    + simpl. by rewrite Hlen.
    + by constructor.
Qed.

End loop_more.

(** X17: a turn of the synchronous [Agent.process] returns exactly when its
    single backend call returns; the call is made without tools, the
    response is handed back as it is, also when it carries tool-call
    requests, and the turn is committed to the memory and the log. *)
Theorem X17_sync_process_single_call `{Runtime} (self : Agent.t) (s : Agent.state)
    (user_input model : string) (msgs0 : list message)
    (r : response) (s' : Agent.state) :
  PromptManager.get_messages (Agent.prompt_manager self) user_input
    (Some (MemoryManager.get_history (Agent.memory_manager s)
             MemoryManager.default_limit)) None = Ok msgs0 →
  Agent.process self user_input model s = (Ok r, s') ↔
  Agent.llm self (Agent.trace s) model msgs0 None = Ok r ∧
  s' = committed s user_input (value_of_response r) model
         [LLMCall model msgs0 (Ok r)].
Proof.
  intros Hmsgs. unfold Agent.process.
  erewrite bindM_ok; [|unfold Agent.build_messages; by rewrite Hmsgs].
  unfold Agent.bindM at 1.
  rewrite (chat_completion_run self model msgs0 None s _ eq_refl).
  destruct (Agent.llm self (Agent.trace s) model msgs0 None) as [r0|e|w]; simpl.
  - split.
    + intros [= <- <-]. done.
    + intros [[= ->] ->]. done.
  - split; [done|]. by intros [? _].
  - split; [done|]. by intros [? _].
Qed.

Lemma X17_sync_process_single_call_witness :
  ∃ r s',
    @Agent.process sample_runtime (sample_agent (one_tool_call_llm "calendlytool"))
      "book a slot" "gpt-4o" Agent.init_state = (Ok r, s') ∧
    length (Agent.trace s') = 1%nat.
Proof.
  eexists. eexists. split.
  - apply (X17_sync_process_single_call (H := sample_runtime)
             (sample_agent (one_tool_call_llm "calendlytool")) Agent.init_state
             "book a slot" "gpt-4o"
             [mk_message "system" "You are helpful"; mk_message "user" "book a slot"]).
    + vm_compute. reflexivity.
    + split; reflexivity.
  - reflexivity.
Defined.

(** X18: an agent built without tools (the default [tools=None]) cannot
    resolve any request: [handle_tool_calls] raises [TypeError] at the first
    request without running anything, and returns the empty list only for
    an empty list of requests. *)
Theorem X18_no_tools_cannot_dispatch (self : Agent.t) (calls : list tool_call)
    (s : Agent.state) :
  Agent.tools self = None →
  Agent.handle_tool_calls self calls s =
    (match calls with [] => Ok [] | _ :: _ => Raise TypeError end, s).
Proof.
  intros Hts. unfold Agent.handle_tool_calls. rewrite Hts.
  by destruct calls.
Qed.

Lemma X18_no_tools_cannot_dispatch_witness :
  Agent.handle_tool_calls
    {| Agent.llm := failing_llm; Agent.prompt_manager := sample_manager;
       Agent.tools := None |}
    [ {| function_name := "search"; function_arguments := ∅ |} ] Agent.init_state =
    (Raise TypeError, Agent.init_state).
Proof.
  apply (X18_no_tools_cannot_dispatch
           {| Agent.llm := failing_llm; Agent.prompt_manager := sample_manager;
              Agent.tools := None |}
           [ {| function_name := "search"; function_arguments := ∅ |} ]).
  reflexivity.
Defined.

(** X19: in [Agent.aprocess], an agent built without tools fails the turn
    with [TypeError] as soon as a response carries a tool-call request:
    after that one backend call nothing else is called and nothing is
    written to the memory. *)
Theorem X19_no_tools_turn_fails `{Runtime} (self : Agent.t) (s : Agent.state)
    (user_input model : string) (fuel : nat) (msgs0 : list message)
    (r : structured) :
  Agent.tools self = None →
  PromptManager.get_messages (Agent.prompt_manager self) user_input
    (Some (MemoryManager.get_history (Agent.memory_manager s)
             MemoryManager.default_limit)) None = Ok msgs0 →
  Agent.llm self (Agent.trace s) model msgs0 None = Ok (RStructured r) →
  tool_calls r ≠ [] →
  Agent.aprocess (S fuel) self user_input model s =
    (Raise TypeError,
     with_trace s (Agent.trace s ++ [LLMCall model msgs0 (Ok (RStructured r))])).
Proof.
  intros Hts Hmsgs Hllm Hne. unfold Agent.aprocess.
  erewrite bindM_ok; [|unfold Agent.build_messages; by rewrite Hmsgs].
  unfold Agent.bindM at 1. cbn [Agent.aprocess_loop]. rewrite Hts.
  erewrite bindM_ok; [|by apply chat_completion_run].
  erewrite bindM_ok; [|reflexivity].
  destruct (tool_calls r) as [|tc tcs] eqn:Htc; [done|].
  unfold Agent.bindM at 1.
  unfold Agent.handle_tool_calls; by rewrite Hts.
Qed.

Lemma X19_no_tools_turn_fails_witness :
  @Agent.aprocess sample_runtime 1
    {| Agent.llm := asking_llm; Agent.prompt_manager := sample_manager;
       Agent.tools := None |}
    "find it" "gpt-4o" Agent.init_state =
    (Raise TypeError,
     with_trace Agent.init_state
       (Agent.trace Agent.init_state ++
        [LLMCall "gpt-4o"
           [mk_message "system" "You are helpful"; mk_message "user" "find it"]
           (Ok (RStructured
                  {| content := None;
                     tool_calls := [ {| function_name := "search";
                                        function_arguments := ∅ |} ] |}))])).
Proof.
  apply (X19_no_tools_turn_fails (H := sample_runtime)).
  - reflexivity.
  - vm_compute. reflexivity.
  - reflexivity.
  - discriminate.
Defined.

(** X20: a tool that raises ends the round: the tools of the earlier
    requests have run, their results are lost, the tools of the later
    requests are not run, and [handle_tool_calls] raises the exception of
    the tool. *)
Theorem X20_tool_failure_ends_round (self : Agent.t) (ts : list Tool)
    (pre post : list tool_call) (tc : tool_call) (t : Tool) (e : exn)
    (results : list pyobj) (s : Agent.state) :
  Agent.tools self = Some ts →
  runs_ok (Agent.trace s) (matched_calls ts pre) results →
  resolve ts (function_name tc) = Some t →
  arun t (Agent.trace s ++ tool_events (matched_calls ts pre) results)
    (function_arguments tc) = Raise e →
  Agent.handle_tool_calls self (pre ++ tc :: post) s =
    (Raise e,
     with_trace s
       (Agent.trace s ++ tool_events (matched_calls ts pre) results ++
        [ToolRun (class_name t) (function_arguments tc) (Raise e)])).
Proof.
  intros Hts Hruns Hres Hrun. unfold Agent.handle_tool_calls. rewrite Hts.
  by apply tool_calls_loop_failure.
Qed.

Lemma X20_tool_failure_ends_round_witness :
  let self := {| Agent.llm := failing_llm; Agent.prompt_manager := sample_manager;
                 Agent.tools := Some [calendly_tool; broken_tool] |} in
  let book := {| function_name := "calendlytool";
                 function_arguments := {[ "invitee_name" := PyStr "Ada" ]} |} in
  let search := {| function_name := "search"; function_arguments := ∅ |} in
  Agent.handle_tool_calls self ([book] ++ search :: [book]) Agent.init_state =
    (Raise (Exception "timeout"),
     with_trace Agent.init_state
       (Agent.trace Agent.init_state ++
        tool_events (matched_calls [calendly_tool; broken_tool] [book]) [PyStr "Ada"] ++
        [ToolRun (class_name broken_tool) (function_arguments search)
           (Raise (Exception "timeout"))])).
Proof.
  intros self book search.
  apply (X20_tool_failure_ends_round self [calendly_tool; broken_tool]
           [book] [book] search broken_tool).
  - reflexivity.
  - vm_compute. split; reflexivity.
  - vm_compute. reflexivity.
  - reflexivity.
Defined.



(** X22: in [Agent.aprocess], a first response without tool-call requests
    ends the turn after one backend call: no tool is looked up, also when
    the agent has no tools, and the response is committed and handed
    back. *)
Theorem X22_terminal_response_single_call `{Runtime} (self : Agent.t) (s : Agent.state)
    (user_input model : string) (fuel : nat) (msgs0 : list message)
    (r : structured) :
  PromptManager.get_messages (Agent.prompt_manager self) user_input
    (Some (MemoryManager.get_history (Agent.memory_manager s)
             MemoryManager.default_limit)) None = Ok msgs0 →
  Agent.llm self (Agent.trace s) model msgs0 (Agent.tools self) = Ok (RStructured r) →
  tool_calls r = [] →
  Agent.aprocess (S fuel) self user_input model s =
    (Ok (RStructured r),
     committed s user_input (VResponse r) model
       [LLMCall model msgs0 (Ok (RStructured r))]).
Proof.
  intros Hmsgs Hllm Htc. unfold Agent.aprocess.
  erewrite bindM_ok; [|unfold Agent.build_messages; by rewrite Hmsgs].
  cbn [Agent.aprocess_loop].
  erewrite bindM_ok; [|].
  2:{ erewrite bindM_ok; [|by apply chat_completion_run].
      erewrite bindM_ok; [|reflexivity]. rewrite Htc. reflexivity. }
  reflexivity.
Qed.

Lemma X22_terminal_response_single_call_witness :
  @Agent.aprocess sample_runtime 1
    {| Agent.llm := λ _ _ _ _, Ok (RStructured {| content := Some "Hello"; tool_calls := [] |});
       Agent.prompt_manager := sample_manager; Agent.tools := None |}
    "hi" "gpt-4o" Agent.init_state =
    (Ok (RStructured {| content := Some "Hello"; tool_calls := [] |}),
     @committed sample_runtime Agent.init_state "hi"
       (VResponse {| content := Some "Hello"; tool_calls := [] |}) "gpt-4o"
       [LLMCall "gpt-4o" [mk_message "system" "You are helpful"; mk_message "user" "hi"]
          (Ok (RStructured {| content := Some "Hello"; tool_calls := [] |}))]).
Proof.
  apply (X22_terminal_response_single_call (H := sample_runtime)).
  - vm_compute. reflexivity.
  - reflexivity.
  - reflexivity.
Defined.

(** X23: [ReactAgent.process] has no bound on its iterations: with a
    backend whose answers never contain the marker, the loop makes one
    backend call per iteration and has not returned after any number of
    them; the memory and the log are not written. *)
Theorem X23_react_loop_is_unbounded `{Runtime} (self : Agent.t) (s : Agent.state)
    (user_input model : string) (fuel : nat) (msgs0 : list message) :
  PromptManager.get_messages (Agent.prompt_manager self) user_input
    (Some (MemoryManager.get_history (Agent.memory_manager s)
             MemoryManager.default_limit)) None = Ok msgs0 →
  (∀ tr msgs, ∃ text, Agent.llm self tr model msgs None = Ok (RText text) ∧
                      contains ReactAgent.marker text = false) →
  ∃ evs,
    ReactAgent.process fuel self user_input model s =
      (Stuck OutOfFuel, with_trace s (Agent.trace s ++ evs)) ∧
    length evs = fuel ∧ Forall (λ ev, is_llm_call ev = true) evs.
Proof.
  intros Hmsgs Hllm. unfold ReactAgent.process.
  erewrite bindM_ok; [|unfold Agent.build_messages; by rewrite Hmsgs].
  by apply react_loop_never_returns.
Qed.

Lemma X23_react_loop_is_unbounded_witness :
  ∃ evs,
    @ReactAgent.process sample_runtime 7 (sample_agent thinking_llm) "2+2?" "gpt-4o"
      Agent.init_state =
      (Stuck OutOfFuel, with_trace Agent.init_state (Agent.trace Agent.init_state ++ evs)) ∧
    length evs = 7%nat ∧ Forall (λ ev, is_llm_call ev = true) evs.
Proof.
  apply (X23_react_loop_is_unbounded (H := sample_runtime) (sample_agent thinking_llm)
           Agent.init_state "2+2?" "gpt-4o" 7
           [mk_message "system" "You are helpful"; mk_message "user" "2+2?"]).
  - vm_compute. reflexivity.
  - intros tr msgs. eexists. split; [reflexivity|]. vm_compute. reflexivity.
Defined.

(** X24: [Agent.aprocess] has no bound on its iterations either: with a
    backend that always asks for tools that are not declared, every
    iteration makes one backend call and runs no tool, and the loop has not
    returned after any number of iterations. *)
Theorem X24_tool_loop_is_unbounded `{Runtime} (self : Agent.t) (ts : list Tool)
    (s : Agent.state) (user_input model : string) (fuel : nat)
    (msgs0 : list message) :
  Agent.tools self = Some ts →
  PromptManager.get_messages (Agent.prompt_manager self) user_input
    (Some (MemoryManager.get_history (Agent.memory_manager s)
             MemoryManager.default_limit)) None = Ok msgs0 →
  (∀ tr msgs, ∃ r, Agent.llm self tr model msgs (Some ts) = Ok (RStructured r) ∧
                   tool_calls r ≠ [] ∧
                   Forall (λ tc, resolve ts (function_name tc) = None) (tool_calls r)) →
  ∃ evs,
    Agent.aprocess fuel self user_input model s =
      (Stuck OutOfFuel, with_trace s (Agent.trace s ++ evs)) ∧
    length evs = fuel ∧ Forall (λ ev, is_llm_call ev = true) evs.
Proof.
  intros Hts Hmsgs Hllm. unfold Agent.aprocess.
  erewrite bindM_ok; [|unfold Agent.build_messages; by rewrite Hmsgs].
  destruct (aprocess_loop_never_returns self ts model fuel Hts Hllm msgs0 s)
    as (evs & Hrun & Hlen & Hall).
  exists evs. split; [|done]. unfold Agent.bindM at 1. by rewrite Hrun.
Qed.

Lemma X24_tool_loop_is_unbounded_witness :
  ∃ evs,
    @Agent.aprocess sample_runtime 6 (sample_agent asking_llm) "find it" "gpt-4o"
      Agent.init_state =
      (Stuck OutOfFuel, with_trace Agent.init_state (Agent.trace Agent.init_state ++ evs)) ∧
    length evs = 6%nat ∧ Forall (λ ev, is_llm_call ev = true) evs.
Proof.
  apply (X24_tool_loop_is_unbounded (H := sample_runtime) (sample_agent asking_llm)
           [calendly_tool] Agent.init_state "find it" "gpt-4o" 6
           [mk_message "system" "You are helpful"; mk_message "user" "find it"]).
  - reflexivity.
  - vm_compute. reflexivity.
  - intros tr msgs. eexists. split; [reflexivity|]. split; [discriminate|].
    repeat constructor.
Defined.

(** X25: a turn of [ReactAgent.aprocess] that ends with an exception leaves
    the memory and the log as they were, and the backend or tool call that
    raised is the last call of the turn. *)
Theorem X25_react_aprocess_failed_turn `{Runtime} (fuel : nat) (self : Agent.t)
    (user_input model : string) :
  turn_safe (ReactAgent.aprocess fuel self user_input model).
Proof.
  unfold ReactAgent.aprocess.
  apply turn_safe_bind; [apply external_build_messages|]. intros messages.
  apply turn_safe_react_aprocess_loop.
Qed.

Lemma X25_react_aprocess_failed_turn_witness :
  let run := @ReactAgent.aprocess sample_runtime 3 (sample_agent failing_llm)
               "hi" "gpt-4o" Agent.init_state in
  run.1 = Raise (Exception "connection refused") ∧
  Agent.memory_manager run.2 = Agent.memory_manager Agent.init_state ∧
  Agent.log_manager run.2 = Agent.log_manager Agent.init_state.
Proof.
  intros run.
  destruct (X25_react_aprocess_failed_turn (H := sample_runtime) 3
              (sample_agent failing_llm) "hi" "gpt-4o"
              Agent.init_state run.1 run.2) as [Hmem _].
  - apply surjective_pairing.
  - split; [vm_compute; reflexivity|].
    apply (Hmem (Exception "connection refused")). vm_compute. reflexivity.
Defined.

(** X26: in [ReactAgent.aprocess] the marker wins over tool-call requests:
    a response whose content has the marker ends the turn at once with the
    stripped answer, and the tools it asks for are not run. *)
Theorem X26_marker_wins_over_tool_calls `{Runtime} (self : Agent.t) (s : Agent.state)
    (user_input model : string) (fuel : nat) (msgs0 : list message)
    (r : structured) (text : string) :
  PromptManager.get_messages (Agent.prompt_manager self) user_input
    (Some (MemoryManager.get_history (Agent.memory_manager s)
             MemoryManager.default_limit)) None = Ok msgs0 →
  Agent.llm self (Agent.trace s) model msgs0 (Agent.tools self) = Ok (RStructured r) →
  content r = Some text →
  contains ReactAgent.marker text = true →
  ReactAgent.aprocess (S fuel) self user_input model s =
    (Ok (strip (replace ReactAgent.marker EmptyString text)),
     committed s user_input
       (VStr (strip (replace ReactAgent.marker EmptyString text))) model
       [LLMCall model msgs0 (Ok (RStructured r))]).
Proof.
  intros Hmsgs Hllm Hc Hm. unfold ReactAgent.aprocess.
  erewrite bindM_ok; [|unfold Agent.build_messages; by rewrite Hmsgs].
  cbn [ReactAgent.aprocess_loop].
  erewrite bindM_ok; [|by apply chat_completion_run].
  erewrite bindM_ok; [|reflexivity].
  erewrite bindM_ok; [|unfold ReactAgent.content_text; by rewrite Hc].
  rewrite Hm. reflexivity.
Qed.

Lemma X26_marker_wins_over_tool_calls_witness :
  ∃ s',
    @ReactAgent.aprocess sample_runtime 1 (sample_agent answering_llm) "2+2?" "gpt-4o"
      Agent.init_state = (Ok "4", s') ∧
    List.filter is_tool_run (Agent.trace s') = [].
Proof.
  eexists. split.
  - apply (X26_marker_wins_over_tool_calls (H := sample_runtime)
             (sample_agent answering_llm) Agent.init_state "2+2?" "gpt-4o" 0
             [mk_message "system" "You are helpful"; mk_message "user" "2+2?"]
             {| content := Some "[FINAL ANSWER] 4";
                tool_calls := [ {| function_name := "calendlytool";
                                   function_arguments :=
                                     {[ "invitee_name" := PyStr "Ada" ]} |} ] |}
             "[FINAL ANSWER] 4").
    + vm_compute. reflexivity.
    + reflexivity.
    + reflexivity.
    + vm_compute. reflexivity.
  - reflexivity.
Defined.

(** ** The final answer of the template and of the agent *)

Lemma replace_go_absent (old new s : string) :
  old ≠ EmptyString → contains old s = false → replace_go old new 0 s = s.
Proof.
  intros Hold. induction s as [|c s IH]; simpl.
  - intros _. by rewrite bool_decide_eq_false_2.
  - intros Hc. apply orb_false_iff in Hc as [Hp Hc].
    rewrite Hp. by rewrite (IH Hc).
Qed.

Lemma prefix_app (p rest : string) : String.prefix p (p +:+ rest) = true.
Proof.
  induction p as [|c p IH]; [by destruct rest|].
  rewrite string_app_cons. simpl. by destruct (ascii_dec c c).
Qed.

Lemma replace_go_skip (old new p rest : string) :
  replace_go old new (String.length p) (p +:+ rest) = replace_go old new 0 rest.
Proof.
  induction p as [|c p IH]; [reflexivity|].
  rewrite string_app_cons. simpl. exact IH.
Qed.

Lemma replace_go_occurrence (old new rest : string) :
  old ≠ EmptyString →
  replace_go old new 0 (old +:+ rest) = new +:+ replace_go old new 0 rest.
Proof.
  intros Hold. destruct old as [|c old]; [done|].
  rewrite string_app_cons. cbn [replace_go].
  rewrite <- string_app_cons, prefix_app.
  rewrite bool_decide_eq_false_2 by done.
  cbn [String.length]. rewrite Nat.sub_1_r. cbn [Nat.pred].
  by rewrite replace_go_skip.
Qed.

(** X27: what [format_final_answer] of the ReAct template writes is what
    the agent takes for a final answer: the formatted text contains the
    marker, and the agent extracts from it the answer, stripped of
    surrounding white space, when the answer has no marker of its own. *)
Theorem X27_final_answer_round_trip (answer : string) :
  contains ReactAgent.marker answer = false →
  contains ReactAgent.marker (ReActPromptTemplate.format_final_answer answer) = true ∧
  strip (replace ReactAgent.marker EmptyString
           (ReActPromptTemplate.format_final_answer answer)) = strip answer.
Proof.
  intros Hc. split; [reflexivity|].
  unfold replace, ReActPromptTemplate.format_final_answer.
  change ("[FINAL ANSWER] " +:+ answer)
    with (ReactAgent.marker +:+ String " " answer).
  rewrite replace_go_occurrence by done.
  rewrite (replace_go_absent ReactAgent.marker EmptyString (String " " answer));
    [reflexivity|done|].
  change (contains ReactAgent.marker (String " " answer))
    with (String.prefix ReactAgent.marker (String " " answer) ||
          contains ReactAgent.marker answer).
  by rewrite Hc.
Qed.

Lemma X27_final_answer_round_trip_witness :
  contains ReactAgent.marker (ReActPromptTemplate.format_final_answer " 72 F, cloudy ") = true ∧
  strip (replace ReactAgent.marker EmptyString
           (ReActPromptTemplate.format_final_answer " 72 F, cloudy ")) =
    strip " 72 F, cloudy ".
Proof. apply X27_final_answer_round_trip. vm_compute. reflexivity. Defined.

(** ** What a turn sends and what it keeps *)

Section turn_more.
Import Agent.
Context `{Runtime}.

Lemma process_inv (self : Agent.t) (s : state) (user_input model : string)
    (out : outcome response) (s' : state) :
  process self user_input model s = (out, s') →
  (∃ e, PromptManager.get_messages (prompt_manager self) user_input
          (Some (MemoryManager.get_history (memory_manager s)
                   MemoryManager.default_limit)) None = Raise e ∧ s' = s) ∨
  (∃ w, PromptManager.get_messages (prompt_manager self) user_input
          (Some (MemoryManager.get_history (memory_manager s)
                   MemoryManager.default_limit)) None = Stuck w ∧ s' = s) ∨
  (∃ msgs0,
     PromptManager.get_messages (prompt_manager self) user_input
       (Some (MemoryManager.get_history (memory_manager s)
                MemoryManager.default_limit)) None = Ok msgs0 ∧
     trace s' = (trace s ++ [LLMCall model msgs0
                               (llm self (trace s) model msgs0 None)])%list ∧
     (∀ r, out = Ok r →
        llm self (trace s) model msgs0 None = Ok r ∧
        s' = committed s user_input (value_of_response r) model
               [LLMCall model msgs0 (Ok r)])).
Proof.
  unfold process. unfold bindM at 1. unfold build_messages at 1.
  destruct (PromptManager.get_messages _ _ _ _) as [msgs0|e|w] eqn:Hmsgs.
  - intros Hrun. right. right. exists msgs0. split; [done|].
    revert Hrun. unfold bindM at 1.
    rewrite (chat_completion_run self model msgs0 None s _ eq_refl).
    destruct (llm self (trace s) model msgs0 None) as [r0|e|w]; simpl.
    + intros [= <- <-]. split; [done|]. by intros r [= ->].
    + intros [= <- <-]. split; [done|]. by intros r.
    + intros [= <- <-]. split; [done|]. by intros r.
  - intros [= <- <-]. left. by exists e.
  - intros [= <- <-]. right. left. by exists w.
Qed.



End turn_more.

(** X28: the only backend call of a turn of [Agent.process] on a user input
    without braces receives the system message of the manager, then the
    last 20 stored messages (all of them when fewer are stored), then the
    user input as a user message. *)
Theorem X28_turn_sends_last_20_messages `{Runtime} (self : Agent.t) (s : Agent.state)
    (user_input model : string) (out : outcome response) (s' : Agent.state) :
  brace_free user_input = true →
  Agent.process self user_input model s = (out, s') →
  ∃ result,
    Agent.trace s' =
      (Agent.trace s ++
       [LLMCall model
          (PromptManager.default_messages (Agent.prompt_manager self) ++
           last_n 20 (MemoryStore.history
                        (MemoryManager.store (Agent.memory_manager s))) ++
           [ mk_message "user" user_input ])
          result])%list.
Proof.
  intros Hbf Hrun.
  pose proof (brace_free_messages (Agent.prompt_manager self) user_input
                (Some (MemoryManager.get_history (Agent.memory_manager s)
                         MemoryManager.default_limit)) None Hbf) as Hmsgs.
  destruct (process_inv _ _ _ _ _ _ Hrun)
    as [(e & He & _)|[(w & Hw & _)|(msgs0 & Hm & Htr & _)]]; try congruence.
  rewrite Hmsgs in Hm. injection Hm as <-.
  eexists. rewrite Htr. do 3 f_equal. simpl.
  unfold MemoryManager.get_history, MemoryStore.get_history.
  by rewrite slice_from_last.
Qed.

Lemma X28_turn_sends_last_20_messages_witness :
  ∃ result,
    Agent.trace (@Agent.process sample_runtime (sample_agent failing_llm) "hi" "gpt-4o"
                   Agent.init_state).2 =
      (Agent.trace Agent.init_state ++
       [LLMCall "gpt-4o"
          (PromptManager.default_messages (Agent.prompt_manager (sample_agent failing_llm)) ++
           last_n 20 (MemoryStore.history
                        (MemoryManager.store (Agent.memory_manager Agent.init_state))) ++
           [ mk_message "user" "hi" ])
          result])%list.
Proof.
  apply (X28_turn_sends_last_20_messages (H := sample_runtime)
           (sample_agent failing_llm) Agent.init_state "hi" "gpt-4o"
           (@Agent.process sample_runtime (sample_agent failing_llm) "hi" "gpt-4o"
              Agent.init_state).1).
  - vm_compute. reflexivity.
  - apply surjective_pairing.
Defined.


